(** * sherpa-onnx: the streaming LSTM transducer model and the Zipformer C example

    A shallow embedding of
      - sherpa-onnx/csrc/online-lstm-transducer-model.cc
      - c-api-examples/zipformer-c-api.c
    and the properties of the specification stated over it.

    The onnxruntime library, the C library and the sherpa-onnx C API are
    outside these two files; they appear as explicit interfaces
    ([OnnxModel], [Env], [Allocator], [atoi], [CApi]). *)

From Stdlib Require Import ZArith List Ascii String Bool Lia.
From Stdlib Require Import Floats.SpecFloat.
From stdpp Require Import base option numbers list strings pretty gmap.

Local Open Scope string_scope.
Local Open Scope list_scope.
Local Open Scope Z_scope.

(* ===================================================================== *)
(** ** Machine integers *)
(* ===================================================================== *)

Module Int.

Definition INT_MAX : Z := 2147483647.
Definition INT_MIN : Z := -2147483648.
Definition LONG_MAX : Z := 9223372036854775807.
Definition LONG_MIN : Z := -9223372036854775808.

(** An integer reduced to the 32-bit two's complement range. *)
Definition to_int32 (z : Z) : Z := (z + 2 ^ 31) mod 2 ^ 32 - 2 ^ 31.

(** [a * b] on [int32_t] operands (the result is an [int]). *)
Definition mul32 (a b : Z) : Z := to_int32 (a * b).

Definition in_int32 (z : Z) : Prop := INT_MIN <= z <= INT_MAX.

End Int.

(* ===================================================================== *)
(** ** C strings: [atoi] and the [fprintf] formats used *)
(* ===================================================================== *)

Module CString.

Definition nl : string := String "010"%char EmptyString.

Definition code (c : ascii) : Z := Z.of_N (N_of_ascii c).

(** [isspace] in the C locale: space, \t, \n, \v, \f, \r. *)
Definition isspace (c : ascii) : bool :=
  (code c =? 32) || ((9 <=? code c) && (code c <=? 13)).

Definition isdigit (c : ascii) : bool :=
  (48 <=? code c) && (code c <=? 57).

Definition digit_value (c : ascii) : Z := code c - 48.

Fixpoint skip_space (s : string) : string :=
  match s with
  | String c s' => if isspace c then skip_space s' else s
  | EmptyString => s
  end.

(** The decimal digits at the head of [s], folded into [acc]; the scan
    stops at the first character that is not a digit. *)
Fixpoint accumulate (acc : Z) (s : string) : Z :=
  match s with
  | String c s' =>
      if isdigit c then accumulate (10 * acc + digit_value c) s' else acc
  | EmptyString => acc
  end.

(** The sign character, if any, and the rest of the subject sequence. *)
Definition split_sign (s : string) : bool * string :=
  match s with
  | String c s' =>
      if Ascii.eqb c "-" then (true, s')
      else if Ascii.eqb c "+" then (false, s')
      else (false, s)
  | EmptyString => (false, s)
  end.

Definition clamp_long (z : Z) : Z :=
  if z <? Int.LONG_MIN then Int.LONG_MIN
  else if Int.LONG_MAX <? z then Int.LONG_MAX
  else z.

(** [strtol(s, NULL, 10)] with a 64-bit [long]: white space, an optional
    sign, then the longest run of digits; no digits gives 0; a value out
    of range saturates. *)
Definition strtol10 (s : string) : Z :=
  let '(neg, digits) := split_sign (skip_space s) in
  let n := accumulate 0 digits in
  clamp_long (if neg then - n else n).

(** [atoi(s)] is [(int) strtol(s, NULL, 10)]. *)
Definition atoi (s : string) : Z := Int.to_int32 (strtol10 s).

(** The text has no decimal-integer prefix: after white space and an
    optional sign the next character is not a digit. *)
Definition no_integer_prefix (s : string) : Prop :=
  match snd (split_sign (skip_space s)) with
  | String c _ => isdigit c = false
  | EmptyString => True
  end.

(** A string made of decimal digits only, and the number it writes. *)
Fixpoint all_digits (s : string) : bool :=
  match s with
  | String c s' => isdigit c && all_digits s'
  | EmptyString => true
  end.

Fixpoint decimal (acc : Z) (s : string) : Z :=
  match s with
  | String c s' => decimal (10 * acc + digit_value c) s'
  | EmptyString => acc
  end.

(** The text does not go on with a digit. *)
Definition stops_digits (s : string) : Prop :=
  match s with
  | String c _ => isdigit c = false
  | EmptyString => True
  end.

(** ["%s does not exist in the metadata\n"] *)
Definition fmt_missing (key : string) : string :=
  key +:+ " does not exist in the metadata" +:+ nl.

(** ["Invalud value %d for %s\n"] *)
Definition fmt_invalid (value : Z) (key : string) : string :=
  "Invalud value " +:+ pretty value +:+ " for " +:+ key +:+ nl.

(** ["implement me: %s:%d!\n"] *)
Definition fmt_implement_me (func : string) (line : Z) : string :=
  "implement me: " +:+ func +:+ ":" +:+ pretty line +:+ "!" +:+ nl.

End CString.

(* ===================================================================== *)
(** ** The onnxruntime interface, as far as the model class uses it *)
(* ===================================================================== *)

Module Ort.

(** [float] values (binary32: precision 24, maximal exponent 128). *)
Definition float : Type := spec_float.

(** The conversion of an [int] to [float]. *)
Definition float_of_int (n : Z) : float := binary_normalize 24 128 n 0 false.

(** Addresses of [int64_t] storage that the caller owns: a heap block, or
    a local variable of a function (gone when that function returns). *)
Inductive base :=
| Heap (b : N)
| Local (func var : string).

Record pointer := { ptr_base : base; ptr_offset : Z }.

Definition ptr_add (p : pointer) (n : Z) : pointer :=
  {| ptr_base := ptr_base p; ptr_offset := ptr_offset p + n |}.

(** A tensor either owns a buffer obtained from an allocator (element
    [i] of the buffer is [data i]) or refers to storage of the caller. *)
Inductive storage :=
| OwnedFloat (data : Z -> float)
| BorrowedInt64 (p : pointer) (count : Z).

Record Tensor := { shape : list Z; store : storage }.

(** [Ort::Value]: a tensor, or nothing once it has been moved from. *)
Inductive Value :=
| NullValue
| TensorValue (t : Tensor).

Definition element_count (dims : list Z) : Z := fold_right Z.mul 1 dims.

(** [Ort::AllocatorWithDefaultOptions]: the buffers it hands out, in
    order; it does not initialise them. *)
Definition Allocator : Type := nat -> Z -> float.

Definition Allocator_alloc (a : Allocator) : (Z -> float) * Allocator :=
  (a 0%nat, fun k => a (S k)).

(** [Ort::Value::CreateTensor<float>(allocator, shape, shape_len)] *)
Definition CreateTensor_float (a : Allocator) (dims : list Z)
  : Value * Allocator :=
  let '(buf, a') := Allocator_alloc a in
  (TensorValue {| shape := dims; store := OwnedFloat buf |}, a').

(** [Ort::Value::CreateTensor(memory_info, p_data, p_data_element_count,
    shape, shape_len)] on [int64_t] data: the value refers to [p_data]. *)
Definition CreateTensor_int64 (p_data : pointer) (p_data_element_count : Z)
    (dims : list Z) : Value :=
  TensorValue {| shape := dims;
                 store := BorrowedInt64 p_data p_data_element_count |}.

(** [std::fill(data, data + n, x)] over [GetTensorMutableData<float>()].
    A range that is reversed or leaves the buffer has no defined result. *)
Definition fill_float (v : Value) (n : Z) (x : float) : option Value :=
  match v with
  | TensorValue {| shape := dims; store := OwnedFloat data |} =>
      if (0 <=? n) && (n <=? element_count dims) then
        Some (TensorValue
                {| shape := dims;
                   store := OwnedFloat
                     (fun i => if (0 <=? i) && (i <? n) then x else data i) |})
      else None
  | _ => None
  end.

Definition value_shape (v : Value) : option (list Z) :=
  match v with
  | TensorValue t => Some (shape t)
  | NullValue => None
  end.

(** Element [i] of a [float] tensor. *)
Definition float_at (v : Value) (i : Z) : option float :=
  match v with
  | TensorValue {| shape := dims; store := OwnedFloat data |} =>
      if (0 <=? i) && (i <? element_count dims) then Some (data i) else None
  | _ => None
  end.

(** The elements of an [int64_t] tensor, read through the memory it
    refers to; [None] when the reference leaves the block. *)
Definition int64_elements (mem : gmap N (list Z)) (v : Value)
  : option (list Z) :=
  match v with
  | TensorValue {| shape := _;
                   store := BorrowedInt64 {| ptr_base := Heap b;
                                             ptr_offset := off |} count |} =>
      match mem !! b with
      | Some blk =>
          if (0 <=? off) && (0 <=? count)
             && (off + count <=? Z.of_nat (length blk))
          then Some (take (Z.to_nat count) (drop (Z.to_nat off) blk))
          else None
      | None => None
      end
  | _ => None
  end.

Record SessionOptions := {
  intra_op_num_threads : Z;
  inter_op_num_threads : Z
}.

Definition SessionOptions_default : SessionOptions :=
  {| intra_op_num_threads := 0; inter_op_num_threads := 0 |}.

Definition SetIntraOpNumThreads (o : SessionOptions) (n : Z) :=
  {| intra_op_num_threads := n;
     inter_op_num_threads := inter_op_num_threads o |}.

Definition SetInterOpNumThreads (o : SessionOptions) (n : Z) :=
  {| intra_op_num_threads := intra_op_num_threads o;
     inter_op_num_threads := n |}.

(** What a model file holds: the declared names, the custom metadata
    and the graph; [graph_run] is [None] when execution fails. *)
Record OnnxModel := {
  graph_inputs : list string;
  graph_outputs : list string;
  custom_metadata : gmap string string;
  graph_run : list (string * Value) -> list string -> option (list Value)
}.

Record Session := {
  session_path : string;
  session_options : SessionOptions;
  session_model : OnnxModel
}.

End Ort.

Export Ort.

(* ===================================================================== *)
(** ** Effects: what the process does, and how a call ends *)
(* ===================================================================== *)

Inductive event :=
| EvStderr (text : string)
| EvSessionCreated (path : string) (opts : SessionOptions)
| EvRun (path : string) (inputs : list (string * Value))
        (outputs : list string).

Inductive outcome (A : Type) :=
| Ret (a : A)                (* the call returns *)
| Exit (status : Z)          (* [exit(status)]: the process ends *)
| Throw (what : string)      (* an [Ort::Exception] leaves the call *)
| Undefined.                 (* no defined behaviour *)

Arguments Ret {A} a.
Arguments Exit {A} status.
Arguments Throw {A} what.
Arguments Undefined {A}.

Definition Proc (A : Type) : Type := list event * outcome A.

Definition trace {A} (m : Proc A) : list event := fst m.
Definition result {A} (m : Proc A) : outcome A := snd m.

Definition proc_bind {A B} (f : A -> Proc B) (m : Proc A) : Proc B :=
  match m with
  | (t, Ret a) => (t ++ trace (f a), result (f a))
  | (t, Exit s) => (t, Exit s)
  | (t, Throw w) => (t, Throw w)
  | (t, Undefined) => (t, Undefined)
  end.

#[global] Instance Proc_ret : MRet Proc := fun A a => ([], Ret a).
#[global] Instance Proc_bind : MBind Proc := @proc_bind.

Definition emit (e : event) : Proc unit := ([e], Ret tt).
Definition fprintf_stderr (text : string) : Proc unit := emit (EvStderr text).
Definition exit {A} (status : Z) : Proc A := ([], Exit status).
Definition throw {A} (what : string) : Proc A := ([], Throw what).
Definition undefined {A} : Proc A := ([], Undefined).

Definition is_run (e : event) : bool :=
  match e with EvRun _ _ _ => true | _ => false end.

(** [v[i]] on a [std::vector]; out of range there is no defined result. *)
Definition vector_at {A} (v : list A) (i : nat) : Proc A :=
  match v !! i with
  | Some x => mret x
  | None => undefined
  end.

(* ===================================================================== *)
(** ** online-lstm-transducer-model.cc *)
(* ===================================================================== *)

(** What the process finds outside this file: the model files behind the
    paths (a path that cannot be loaded makes the session constructor
    throw), [PrintModelMetadata] of onnx-utils, and the default allocator
    of the runtime. [SHERPA_MAYBE_WIDE] only changes the encoding of the
    path. *)
Record Env := {
  open_model : string -> option OnnxModel;
  PrintModelMetadata : OnnxModel -> string;
  default_allocator : Allocator
}.

Record OnlineTransducerModelConfig := {
  encoder_filename : string;
  decoder_filename : string;
  joiner_filename : string;
  num_threads : Z;
  debug : bool
}.

(** The session made from the model [g] found at [path]. *)
Definition created (path : string) (opts : SessionOptions) (g : OnnxModel)
  : Session :=
  {| session_path := path; session_options := opts; session_model := g |}.

(** [std::make_unique<Ort::Session>(env_, path, sess_opts_)] *)
Definition Session_new (env : Env) (path : string) (opts : SessionOptions)
  : Proc Session :=
  match open_model env path with
  | Some g =>
      emit (EvSessionCreated path opts);;
      mret (created path opts g)
  | None => throw ("cannot load " +:+ path)
  end.

(** [GetInputNames], [GetOutputNames] of onnx-utils: all the names the
    session declares, in order. *)
Definition GetInputNames (sess : Session) : list string :=
  graph_inputs (session_model sess).

Definition GetOutputNames (sess : Session) : list string :=
  graph_outputs (session_model sess).

(** [sess->Run({}, input_names, inputs, input_count, output_names,
    output_count)]: [input_count] names are read from [input_names]. *)
Definition Session_Run (sess : Session) (input_names : list string)
    (inputs : list Value) (output_names : list string) : Proc (list Value) :=
  if (length input_names <? length inputs)%nat then undefined
  else
    let named := zip (take (length inputs) input_names) inputs in
    emit (EvRun (session_path sess) named output_names);;
    match graph_run (session_model sess) named output_names with
    | Some outs => mret outs
    | None => throw "Run failed"
    end.

(** The macro [SHERPA_ONNX_READ_META_DATA(dst, src_key)]; the value it
    leaves in [dst] is the result. *)
Definition SHERPA_ONNX_READ_META_DATA (meta_data : gmap string string)
    (src_key : string) : Proc Z :=
  match meta_data !! src_key with
  | None =>
      fprintf_stderr (CString.fmt_missing src_key);;
      exit (-1)
  | Some value =>
      let dst := CString.atoi value in
      if dst <=? 0 then
        fprintf_stderr (CString.fmt_invalid dst src_key);;
        exit (-1)
      else mret dst
  end.

(** The members of the class, grouped by the function that sets them. The
    integer members are [int32_t]. The [..._names_ptr_] vectors hold
    pointers to the strings of the [..._names_] vectors and are not
    modelled apart from them. *)
Record EncoderMembers := {
  encoder_sess_ : Session;
  encoder_input_names_ : list string;
  encoder_output_names_ : list string;
  num_encoder_layers_ : Z;
  T_ : Z;
  decode_chunk_len_ : Z;
  rnn_hidden_size_ : Z;
  d_model_ : Z
}.

Record DecoderMembers := {
  decoder_sess_ : Session;
  decoder_input_names_ : list string;
  decoder_output_names_ : list string;
  vocab_size_ : Z;
  context_size_ : Z
}.

Record JoinerMembers := {
  joiner_sess_ : Session;
  joiner_input_names_ : list string;
  joiner_output_names_ : list string
}.

Record OnlineLstmTransducerModel := {
  config_ : OnlineTransducerModelConfig;
  sess_opts_ : SessionOptions;
  allocator_ : Allocator;
  encoder_ : EncoderMembers;
  decoder_ : DecoderMembers;
  joiner_ : JoinerMembers
}.

Definition debug_dump (env : Env) (config : OnlineTransducerModelConfig)
    (title : string) (sess : Session) : Proc unit :=
  if debug config then
    fprintf_stderr (title +:+ CString.nl
                    +:+ PrintModelMetadata env (session_model sess)
                    +:+ CString.nl)
  else mret tt.

Definition InitEncoder (env : Env) (config : OnlineTransducerModelConfig)
    (sess_opts : SessionOptions) (filename : string) : Proc EncoderMembers :=
  sess ← Session_new env filename sess_opts;
  let input_names := GetInputNames sess in
  let output_names := GetOutputNames sess in
  let meta_data := custom_metadata (session_model sess) in
  debug_dump env config "---encoder---" sess;;
  num_encoder_layers ← SHERPA_ONNX_READ_META_DATA meta_data "num_encoder_layers";
  T ← SHERPA_ONNX_READ_META_DATA meta_data "T";
  decode_chunk_len ← SHERPA_ONNX_READ_META_DATA meta_data "decode_chunk_len";
  rnn_hidden_size ← SHERPA_ONNX_READ_META_DATA meta_data "rnn_hidden_size";
  d_model ← SHERPA_ONNX_READ_META_DATA meta_data "d_model";
  mret {| encoder_sess_ := sess;
          encoder_input_names_ := input_names;
          encoder_output_names_ := output_names;
          num_encoder_layers_ := num_encoder_layers;
          T_ := T;
          decode_chunk_len_ := decode_chunk_len;
          rnn_hidden_size_ := rnn_hidden_size;
          d_model_ := d_model |}.

Definition InitDecoder (env : Env) (config : OnlineTransducerModelConfig)
    (sess_opts : SessionOptions) (filename : string) : Proc DecoderMembers :=
  sess ← Session_new env filename sess_opts;
  let input_names := GetInputNames sess in
  let output_names := GetOutputNames sess in
  let meta_data := custom_metadata (session_model sess) in
  debug_dump env config "---decoder---" sess;;
  vocab_size ← SHERPA_ONNX_READ_META_DATA meta_data "vocab_size";
  context_size ← SHERPA_ONNX_READ_META_DATA meta_data "context_size";
  mret {| decoder_sess_ := sess;
          decoder_input_names_ := input_names;
          decoder_output_names_ := output_names;
          vocab_size_ := vocab_size;
          context_size_ := context_size |}.

Definition InitJoiner (env : Env) (config : OnlineTransducerModelConfig)
    (sess_opts : SessionOptions) (filename : string) : Proc JoinerMembers :=
  sess ← Session_new env filename sess_opts;
  let input_names := GetInputNames sess in
  let output_names := GetOutputNames sess in
  debug_dump env config "---joiner---" sess;;
  mret {| joiner_sess_ := sess;
          joiner_input_names_ := input_names;
          joiner_output_names_ := output_names |}.

(** The constructor. [env_] only sets the logging level of the runtime
    and has no counterpart here; [sess_opts_] and [allocator_] start from
    their defaults. *)
Definition OnlineLstmTransducerModel_new (env : Env)
    (config : OnlineTransducerModelConfig) : Proc OnlineLstmTransducerModel :=
  let sess_opts := SessionOptions_default in
  let sess_opts := SetIntraOpNumThreads sess_opts (num_threads config) in
  let sess_opts := SetInterOpNumThreads sess_opts (num_threads config) in
  e ← InitEncoder env config sess_opts (encoder_filename config);
  d ← InitDecoder env config sess_opts (decoder_filename config);
  j ← InitJoiner env config sess_opts (joiner_filename config);
  mret {| config_ := config;
          sess_opts_ := sess_opts;
          allocator_ := default_allocator env;
          encoder_ := e;
          decoder_ := d;
          joiner_ := j |}.

(** [StackStates]: the tensor returned refers to the local [a], with no
    element and an empty shape; [x_shape] is not used. *)
Definition StackStates (self : OnlineLstmTransducerModel)
    (states : list Value) : Proc Value :=
  fprintf_stderr (CString.fmt_implement_me "StackStates" 120);;
  let a := {| ptr_base := Local "StackStates" "a"; ptr_offset := 0 |} in
  let x := CreateTensor_int64 a 0 [] in
  mret x.

Definition UnStackStates (self : OnlineLstmTransducerModel)
    (states : Value) : Proc (list Value) :=
  fprintf_stderr (CString.fmt_implement_me "UnStackStates" 132);;
  mret [].

(** [GetEncoderInitStates]; the second component is [allocator_] after
    the call. The element counts passed to [std::fill] are products of
    [int32_t] members. *)
Definition GetEncoderInitStates (self : OnlineLstmTransducerModel)
  : option (list Value * Allocator) :=
  let kBatchSize := 1 in
  let L := num_encoder_layers_ (encoder_ self) in
  let h_shape := [L; kBatchSize; d_model_ (encoder_ self)] in
  let '(h, alloc) := CreateTensor_float (allocator_ self) h_shape in
  h ← fill_float h
        (Int.mul32 (Int.mul32 L kBatchSize) (d_model_ (encoder_ self)))
        (float_of_int 0);
  let c_shape := [L; kBatchSize; rnn_hidden_size_ (encoder_ self)] in
  let '(c, alloc) := CreateTensor_float alloc c_shape in
  c ← fill_float c
        (Int.mul32 (Int.mul32 L kBatchSize) (rnn_hidden_size_ (encoder_ self)))
        (float_of_int 0);
  let states := [] in
  let states := states ++ [h] in
  let states := states ++ [c] in
  Some (states, alloc).

(** [RunEncoder]; [states] is taken by reference and its first two
    elements are moved from: the last component is the caller's vector
    after the call. *)
Definition RunEncoder (self : OnlineLstmTransducerModel) (features : Value)
    (states : list Value)
  : Proc (Value * list Value * list Value) :=
  s0 ← vector_at states 0;
  s1 ← vector_at states 1;
  let encoder_inputs := [features; s0; s1] in
  let states := <[1%nat := NullValue]> (<[0%nat := NullValue]> states) in
  encoder_out ← Session_Run (encoder_sess_ (encoder_ self))
                  (encoder_input_names_ (encoder_ self)) encoder_inputs
                  (encoder_output_names_ (encoder_ self));
  let next_states := [] in
  o1 ← vector_at encoder_out 1;
  let next_states := next_states ++ [o1] in
  o2 ← vector_at encoder_out 2;
  let next_states := next_states ++ [o2] in
  o0 ← vector_at encoder_out 0;
  mret (o0, next_states, states).

(** A [std::vector<int64_t>]: where its elements start, and how many. *)
Record vector_int64 := { vec_data : pointer; vec_size : Z }.

Definition BuildDecoderInput (self : OnlineLstmTransducerModel)
    (hyp : vector_int64) : Value :=
  let context_size := context_size_ (decoder_ self) in
  let dims := [1; context_size] in
  CreateTensor_int64
    (ptr_add (ptr_add (vec_data hyp) (vec_size hyp)) (- context_size))
    context_size dims.

Definition RunDecoder (self : OnlineLstmTransducerModel)
    (decoder_input : Value) : Proc Value :=
  decoder_out ← Session_Run (decoder_sess_ (decoder_ self))
                  (decoder_input_names_ (decoder_ self)) [decoder_input]
                  (decoder_output_names_ (decoder_ self));
  vector_at decoder_out 0.

Definition RunJoiner (self : OnlineLstmTransducerModel)
    (encoder_out decoder_out : Value) : Proc Value :=
  let joiner_input := [encoder_out; decoder_out] in
  logit ← Session_Run (joiner_sess_ (joiner_ self))
            (joiner_input_names_ (joiner_ self)) joiner_input
            (joiner_output_names_ (joiner_ self));
  vector_at logit 0.

(** The vector [hyp] holds the tokens [toks] in memory [mem]. *)
Definition holds (mem : gmap N (list Z)) (hyp : vector_int64)
    (toks : list Z) : Prop :=
  exists b, vec_data hyp = {| ptr_base := Heap b; ptr_offset := 0 |}
            /\ mem !! b = Some toks
            /\ vec_size hyp = Z.of_nat (length toks).

(* ===================================================================== *)
(** ** c-api-examples/zipformer-c-api.c *)
(* ===================================================================== *)

Module Zipformer.

(** The structures of c-api.h, with the fields [main] assigns or reads;
    [memset] leaves every other field zero. *)
Record SherpaOnnxWave := {
  samples : list float;
  sample_rate : Z;
  num_samples : Z
}.

Record SherpaOnnxOfflineTransducerModelConfig := {
  encoder : string;
  decoder : string;
  joiner : string
}.

Record SherpaOnnxOfflineModelConfig := {
  transducer : SherpaOnnxOfflineTransducerModelConfig;
  tokens : string;
  model_num_threads : Z;
  model_debug : Z;
  provider : string
}.

Record SherpaOnnxOfflineRecognizerConfig := {
  model_config : SherpaOnnxOfflineModelConfig;
  decoding_method : string
}.

Record SherpaOnnxOfflineRecognizerResult := { text : string }.

(** Recognizers and streams are opaque to the example. *)
Definition Recognizer : Type := N.
Definition Stream : Type := N.

(** What the C API answers. A [None] is the [NULL] the example tests
    for. *)
Record CApi := {
  SherpaOnnxReadWave : string -> option SherpaOnnxWave;
  SherpaOnnxCreateOfflineRecognizer :
    SherpaOnnxOfflineRecognizerConfig -> option Recognizer;
  SherpaOnnxCreateOfflineStream : Recognizer -> Stream;
  SherpaOnnxGetOfflineStreamResult :
    Stream -> SherpaOnnxOfflineRecognizerResult
}.

(** The calls the example makes, in the order it makes them. *)
Inductive call :=
| ReadWave (filename : string)
| CreateOfflineRecognizer (config : SherpaOnnxOfflineRecognizerConfig)
| CreateOfflineStream (recognizer : Recognizer)
| AcceptWaveformOffline (stream : Stream) (rate : Z)
                        (data : list float) (n : Z)
| DecodeOfflineStream (recognizer : Recognizer) (stream : Stream)
| GetOfflineStreamResult (stream : Stream)
| DestroyOfflineRecognizerResult (r : SherpaOnnxOfflineRecognizerResult)
| DestroyOfflineStream (stream : Stream)
| DestroyOfflineRecognizer (recognizer : Recognizer)
| FreeWave (wave : SherpaOnnxWave)
| Fprintf (text : string).

Definition Prog (A : Type) : Type := list call * A.

#[global] Instance Prog_ret : MRet Prog := fun A a => ([], a).
#[global] Instance Prog_bind : MBind Prog :=
  fun A B f m => (fst m ++ fst (f (snd m)), snd (f (snd m))).

Definition does {A} (c : call) (answer : A) : Prog A := ([c], answer).

Definition creates_recognizer (c : call) : bool :=
  match c with CreateOfflineRecognizer _ => true | _ => false end.

Definition creates_stream (c : call) : bool :=
  match c with CreateOfflineStream _ => true | _ => false end.

Definition decodes (c : call) : bool :=
  match c with
  | AcceptWaveformOffline _ _ _ _ | DecodeOfflineStream _ _
  | GetOfflineStreamResult _ => true
  | _ => false
  end.

Definition frees_wave (c : call) : bool :=
  match c with FreeWave _ => true | _ => false end.

Definition wav_filename : string :=
  "sherpa-onnx-zipformer-small-en-2023-06-26/test_wavs/0.wav".
Definition encoder_filename : string :=
  "sherpa-onnx-zipformer-small-en-2023-06-26/encoder-epoch-99-avg-1.onnx".
Definition decoder_filename : string :=
  "sherpa-onnx-zipformer-small-en-2023-06-26/decoder-epoch-99-avg-1.onnx".
Definition joiner_filename : string :=
  "sherpa-onnx-zipformer-small-en-2023-06-26/joiner-epoch-99-avg-1.onnx".
Definition tokens_filename : string :=
  "sherpa-onnx-zipformer-small-en-2023-06-26/tokens.txt".

Definition zipformer_config : SherpaOnnxOfflineTransducerModelConfig :=
  {| encoder := encoder_filename;
     decoder := decoder_filename;
     joiner := joiner_filename |}.

Definition offline_model_config : SherpaOnnxOfflineModelConfig :=
  {| model_debug := 1;
     model_num_threads := 1;
     provider := "cpu";
     tokens := tokens_filename;
     transducer := zipformer_config |}.

Definition recognizer_config : SherpaOnnxOfflineRecognizerConfig :=
  {| decoding_method := "greedy_search";
     model_config := offline_model_config |}.

(** [main]: the calls it makes and the value it returns. *)
Definition main (api : CApi) : Prog Z :=
  wave ← does (ReadWave wav_filename) (SherpaOnnxReadWave api wav_filename);
  match wave with
  | None =>
      does (Fprintf ("Failed to read " +:+ wav_filename +:+ CString.nl)) tt;;
      mret (-1)
  | Some wave =>
      recognizer ← does (CreateOfflineRecognizer recognizer_config)
                     (SherpaOnnxCreateOfflineRecognizer api recognizer_config);
      match recognizer with
      | None =>
          does (Fprintf ("Please check your config!" +:+ CString.nl)) tt;;
          does (FreeWave wave) tt;;
          mret (-1)
      | Some recognizer =>
          stream ← does (CreateOfflineStream recognizer)
                     (SherpaOnnxCreateOfflineStream api recognizer);
          does (AcceptWaveformOffline stream (sample_rate wave)
                  (samples wave) (num_samples wave)) tt;;
          does (DecodeOfflineStream recognizer stream) tt;;
          result ← does (GetOfflineStreamResult stream)
                     (SherpaOnnxGetOfflineStreamResult api stream);
          does (Fprintf ("Decoded text: " +:+ text result +:+ CString.nl)) tt;;
          does (DestroyOfflineRecognizerResult result) tt;;
          does (DestroyOfflineStream stream) tt;;
          does (DestroyOfflineRecognizer recognizer) tt;;
          does (FreeWave wave) tt;;
          mret 0
      end
  end.

End Zipformer.

(* ===================================================================== *)
(** ** Vocabulary of the statements *)
(* ===================================================================== *)

(** The metadata gives [key] a value that [atoi] reads as positive. *)
Definition positive_entry (meta : gmap string string) (key : string) : Prop :=
  exists v, meta !! key = Some v /\ 0 < CString.atoi v.

Definition encoder_keys : list string :=
  ["num_encoder_layers"; "T"; "decode_chunk_len"; "rnn_hidden_size";
   "d_model"].

Definition decoder_keys : list string := ["vocab_size"; "context_size"].

(** No graph was executed. *)
Definition no_run (t : list event) : Prop :=
  forallb (fun e => negb (is_run e)) t = true.

(** The session options of the sessions created, in order. *)
Definition sessions_created (t : list event) : list (string * SessionOptions) :=
  omap (fun e => match e with
                 | EvSessionCreated p o => Some (p, o)
                 | _ => None
                 end) t.

(** The configured thread count, as intra-op and as inter-op count. *)
Definition thread_options (config : OnlineTransducerModelConfig)
  : SessionOptions :=
  {| intra_op_num_threads := num_threads config;
     inter_op_num_threads := num_threads config |}.

Definition float_zero : float := S754_zero false.
Definition float_one : float := S754_finite false 8388608 (-23).

(** *** The shapes of a metadata value

    A value is read as: white space, an optional sign, digits, anything.
    These definitions describe that shape on their own, without the
    functions [atoi] is made of. *)

Fixpoint all_space (s : string) : bool :=
  match s with
  | String c s' => CString.isspace c && all_space s'
  | EmptyString => true
  end.

Inductive sign := NoSign | Plus | Minus.

Definition sign_text (s : sign) : string :=
  match s with
  | NoSign => ""
  | Plus => "+"
  | Minus => "-"
  end.

Definition signed (s : sign) (n : Z) : Z :=
  match s with
  | Minus => - n
  | NoSign | Plus => n
  end.

(** No number starts at [body]: it is empty or starts with a character
    that is not a digit and, where no sign was read, that is neither
    white space nor a sign. *)
Definition starts_no_number (s : sign) (body : string) : Prop :=
  match body with
  | EmptyString => True
  | String c _ =>
      CString.isdigit c = false
      /\ (s = NoSign ->
          CString.isspace c = false /\ c <> "+"%char /\ c <> "-"%char)
  end.

(** The [int] obtained from the mathematical value [z] of the digits:
    held in a 64-bit [long] that saturates, then cut to 32 bits. *)
Definition as_int_of_long (z : Z) : Z :=
  (Z.max (-9223372036854775808) (Z.min 9223372036854775807 z) + 2147483648)
    mod 4294967296 - 2147483648.

(** The entry of [key] is one the metadata reader accepts. *)
Definition entry_ok (meta : gmap string string) (key : string) : bool :=
  match meta !! key with
  | Some v => 0 <? CString.atoi v
  | None => false
  end.

(** The integer the metadata gives to [key], as [atoi] reads it. *)
Definition meta_int (meta : gmap string string) (key : string) : Z :=
  match meta !! key with
  | Some v => CString.atoi v
  | None => 0
  end.

(** The line written about an entry that is not accepted. *)
Definition diagnostic (meta : gmap string string) (key : string) : string :=
  match meta !! key with
  | Some v => CString.fmt_invalid (CString.atoi v) key
  | None => CString.fmt_missing key
  end.

(** The first of [keys], in order, whose entry is not accepted. *)
Definition first_rejected (meta : gmap string string) (keys : list string)
  : option string :=
  find (fun k => negb (entry_ok meta k)) keys.

(** What loading one file leaves in the trace when it succeeds: the
    session, and the dump of its metadata in debug mode. *)
Definition loading_events (env : Env) (config : OnlineTransducerModelConfig)
    (opts : SessionOptions) (title path : string) (g : OnnxModel)
  : list event :=
  EvSessionCreated path opts
  :: (if debug config
      then [EvStderr (title +:+ CString.nl +:+ PrintModelMetadata env g
                      +:+ CString.nl)]
      else []).

(** The three ways a model file can stand. *)
Definition unloadable (env : Env) (path : string) : Prop :=
  open_model env path = None.

Definition in_order (env : Env) (path : string) (keys : list string) : Prop :=
  exists g, open_model env path = Some g
            /\ Forall (positive_entry (custom_metadata g)) keys.

Definition deficient (env : Env) (path : string) (keys : list string) : Prop :=
  exists g, open_model env path = Some g
            /\ ~ Forall (positive_entry (custom_metadata g)) keys.

Definition is_stderr (e : event) : bool :=
  match e with EvStderr _ => true | _ => false end.

(** *** Resources of the C example

    What [main] holds at a point of its run, and a check that a sequence
    of calls only uses what is held, releases it once and leaves nothing
    behind. What a call obtains is what the C API answers. *)
Module Resources.

#[global] Instance spec_float_eq_dec : EqDecision spec_float.
Proof. solve_decision. Defined.

#[global] Instance wave_eq_dec : EqDecision Zipformer.SherpaOnnxWave.
Proof. solve_decision. Defined.

#[global] Instance result_eq_dec :
  EqDecision Zipformer.SherpaOnnxOfflineRecognizerResult.
Proof. solve_decision. Defined.

Record held := {
  held_wave : option Zipformer.SherpaOnnxWave;
  held_recognizer : option Zipformer.Recognizer;
  held_stream : option Zipformer.Stream;
  held_result : option Zipformer.SherpaOnnxOfflineRecognizerResult
}.

Definition nothing : held :=
  {| held_wave := None; held_recognizer := None; held_stream := None;
     held_result := None |}.

Definition set_wave (h : held) w :=
  {| held_wave := w; held_recognizer := held_recognizer h;
     held_stream := held_stream h; held_result := held_result h |}.
Definition set_recognizer (h : held) r :=
  {| held_wave := held_wave h; held_recognizer := r;
     held_stream := held_stream h; held_result := held_result h |}.
Definition set_stream (h : held) st :=
  {| held_wave := held_wave h; held_recognizer := held_recognizer h;
     held_stream := st; held_result := held_result h |}.
Definition set_result (h : held) r :=
  {| held_wave := held_wave h; held_recognizer := held_recognizer h;
     held_stream := held_stream h; held_result := r |}.

Definition guard (b : bool) (h : held) : option held :=
  if b then Some h else None.

(** One call: [None] when it uses or releases something not held, or
    obtains something while the previous one is still held. *)
Definition step (api : Zipformer.CApi) (h : held) (c : Zipformer.call)
  : option held :=
  match c with
  | Zipformer.ReadWave f =>
      guard (bool_decide (held_wave h = None))
            (set_wave h (Zipformer.SherpaOnnxReadWave api f))
  | Zipformer.CreateOfflineRecognizer cfg =>
      guard (bool_decide (held_recognizer h = None))
            (set_recognizer h
               (Zipformer.SherpaOnnxCreateOfflineRecognizer api cfg))
  | Zipformer.CreateOfflineStream r =>
      guard (bool_decide (held_recognizer h = Some r)
             && bool_decide (held_stream h = None))
            (set_stream h (Some (Zipformer.SherpaOnnxCreateOfflineStream api r)))
  | Zipformer.AcceptWaveformOffline st rate data n =>
      guard (bool_decide (held_stream h = Some st)
             && bool_decide
                  (held_wave h
                   = Some {| Zipformer.samples := data;
                             Zipformer.sample_rate := rate;
                             Zipformer.num_samples := n |}))
            h
  | Zipformer.DecodeOfflineStream r st =>
      guard (bool_decide (held_recognizer h = Some r)
             && bool_decide (held_stream h = Some st))
            h
  | Zipformer.GetOfflineStreamResult st =>
      guard (bool_decide (held_stream h = Some st)
             && bool_decide (held_result h = None))
            (set_result h
               (Some (Zipformer.SherpaOnnxGetOfflineStreamResult api st)))
  | Zipformer.DestroyOfflineRecognizerResult r =>
      guard (bool_decide (held_result h = Some r)) (set_result h None)
  | Zipformer.DestroyOfflineStream st =>
      guard (bool_decide (held_stream h = Some st)) (set_stream h None)
  | Zipformer.DestroyOfflineRecognizer r =>
      guard (bool_decide (held_recognizer h = Some r)
             && bool_decide (held_stream h = None))
            (set_recognizer h None)
  | Zipformer.FreeWave w =>
      guard (bool_decide (held_wave h = Some w)) (set_wave h None)
  | Zipformer.Fprintf _ => Some h
  end.

Fixpoint run (api : Zipformer.CApi) (h : held) (t : list Zipformer.call)
  : option held :=
  match t with
  | [] => Some h
  | c :: t' =>
      match step api h c with
      | Some h' => run api h' t'
      | None => None
      end
  end.

(** The calls are in order and nothing is held at the end. *)
Definition clean (api : Zipformer.CApi) (t : list Zipformer.call) : Prop :=
  run api nothing t = Some nothing.

End Resources.

(** *** A small model, for the closed examples. *)
Module Fixture.

Definition meta_of (l : list (string * string)) : gmap string string :=
  list_to_map l.

Definition encoder_meta (layers d_model hidden : string) :=
  meta_of [("num_encoder_layers", layers); ("T", "9");
           ("decode_chunk_len", "4"); ("rnn_hidden_size", hidden);
           ("d_model", d_model)].

Definition decoder_meta :=
  meta_of [("vocab_size", "500"); ("context_size", "2")].

(** A graph that hands its inputs back. *)
Definition echo (ins : list (string * Value)) (outs : list string)
  : option (list Value) :=
  Some ins.*2.

Definition graph (ins outs : list string) (meta : gmap string string)
  : OnnxModel :=
  {| graph_inputs := ins; graph_outputs := outs;
     custom_metadata := meta; graph_run := echo |}.

Definition encoder_graph (layers d_model hidden : string) : OnnxModel :=
  graph ["x"; "h0"; "c0"] ["encoder_out"; "next_h0"; "next_c0"]
        (encoder_meta layers d_model hidden).
Definition decoder_graph (meta : gmap string string) : OnnxModel :=
  graph ["y"] ["decoder_out"] meta.
Definition joiner_graph : OnnxModel :=
  graph ["encoder_out"; "decoder_out"] ["logit"] ∅.

(** Buffers come back holding ones. *)
Definition dirty : Allocator := fun _ _ => float_one.

Definition env_of (enc dec : OnnxModel) : Env :=
  {| open_model := fun path =>
       if String.eqb path "encoder.onnx" then Some enc
       else if String.eqb path "decoder.onnx" then Some dec
       else if String.eqb path "joiner.onnx" then Some joiner_graph
       else None;
     PrintModelMetadata := fun _ => "";
     default_allocator := dirty |}.

Definition config : OnlineTransducerModelConfig :=
  {| encoder_filename := "encoder.onnx";
     decoder_filename := "decoder.onnx";
     joiner_filename := "joiner.onnx";
     num_threads := 2;
     debug := false |}.

(** Three layers, model width 4, hidden width 8. *)
Definition env : Env :=
  env_of (encoder_graph "3" "4" "8") (decoder_graph decoder_meta).

(** The decoder metadata lacks [vocab_size]. *)
Definition env_no_vocab : Env :=
  env_of (encoder_graph "3" "4" "8")
         (decoder_graph (meta_of [("context_size", "2")])).

(** 65536 layers of width 65536. *)
Definition env_huge : Env :=
  env_of (encoder_graph "65536" "65536" "8") (decoder_graph decoder_meta).

(** The model object that construction yields from encoder metadata
    [layers], [d_model], [hidden]. *)
Definition model_with (layers d_model hidden : string) (l d h : Z)
  : OnlineLstmTransducerModel :=
  let opts := {| intra_op_num_threads := 2; inter_op_num_threads := 2 |} in
  {| config_ := config;
     sess_opts_ := opts;
     allocator_ := dirty;
     encoder_ :=
       {| encoder_sess_ :=
            created "encoder.onnx" opts (encoder_graph layers d_model hidden);
          encoder_input_names_ := ["x"; "h0"; "c0"];
          encoder_output_names_ := ["encoder_out"; "next_h0"; "next_c0"];
          num_encoder_layers_ := l;
          T_ := 9;
          decode_chunk_len_ := 4;
          rnn_hidden_size_ := h;
          d_model_ := d |};
     decoder_ :=
       {| decoder_sess_ :=
            created "decoder.onnx" opts (decoder_graph decoder_meta);
          decoder_input_names_ := ["y"];
          decoder_output_names_ := ["decoder_out"];
          vocab_size_ := 500;
          context_size_ := 2 |};
     joiner_ :=
       {| joiner_sess_ := created "joiner.onnx" opts joiner_graph;
          joiner_input_names_ := ["encoder_out"; "decoder_out"];
          joiner_output_names_ := ["logit"] |} |}.

Definition model : OnlineLstmTransducerModel := model_with "3" "4" "8" 3 4 8.

Definition model_huge : OnlineLstmTransducerModel :=
  model_with "65536" "65536" "8" 65536 65536 8.

(** A tensor of the given shape holding [x] everywhere. *)
Definition constant (dims : list Z) (x : float) : Value :=
  TensorValue {| shape := dims; store := OwnedFloat (fun _ => x) |}.

(** Two hypotheses in memory, in blocks 1 and 2. *)
Definition mem : gmap N (list Z) :=
  list_to_map [(1%N, [0; 0; 17; 5; 9]); (2%N, [3; 5; 9])].

Definition hyp1 : vector_int64 :=
  {| vec_data := {| ptr_base := Heap 1; ptr_offset := 0 |}; vec_size := 5 |}.
Definition hyp2 : vector_int64 :=
  {| vec_data := {| ptr_base := Heap 2; ptr_offset := 0 |}; vec_size := 3 |}.

(** A hypothesis of one token only. *)
Definition mem_short : gmap N (list Z) := list_to_map [(1%N, [0])].
Definition hyp_short : vector_int64 :=
  {| vec_data := {| ptr_base := Heap 1; ptr_offset := 0 |}; vec_size := 1 |}.

Definition wave : Zipformer.SherpaOnnxWave :=
  {| Zipformer.samples := [float_zero; float_one];
     Zipformer.sample_rate := 16000;
     Zipformer.num_samples := 2 |}.

(** The wave file cannot be read. *)
Definition api_no_wave : Zipformer.CApi :=
  {| Zipformer.SherpaOnnxReadWave := fun _ => None;
     Zipformer.SherpaOnnxCreateOfflineRecognizer := fun _ => Some 1%N;
     Zipformer.SherpaOnnxCreateOfflineStream := fun _ => 2%N;
     Zipformer.SherpaOnnxGetOfflineStreamResult :=
       fun _ => {| Zipformer.text := "" |} |}.

(** The wave is read, no recognizer is made. *)
Definition api_no_recognizer : Zipformer.CApi :=
  {| Zipformer.SherpaOnnxReadWave := fun _ => Some wave;
     Zipformer.SherpaOnnxCreateOfflineRecognizer := fun _ => None;
     Zipformer.SherpaOnnxCreateOfflineStream := fun _ => 2%N;
     Zipformer.SherpaOnnxGetOfflineStreamResult :=
       fun _ => {| Zipformer.text := "" |} |}.

(** Everything works. *)
Definition api_ok : Zipformer.CApi :=
  {| Zipformer.SherpaOnnxReadWave := fun _ => Some wave;
     Zipformer.SherpaOnnxCreateOfflineRecognizer := fun _ => Some 1%N;
     Zipformer.SherpaOnnxCreateOfflineStream := fun _ => 2%N;
     Zipformer.SherpaOnnxGetOfflineStreamResult :=
       fun _ => {| Zipformer.text := "HELLO" |} |}.

(** The same files, with the metadata dumps switched on. *)
Definition config_debug : OnlineTransducerModelConfig :=
  {| encoder_filename := "encoder.onnx";
     decoder_filename := "decoder.onnx";
     joiner_filename := "joiner.onnx";
     num_threads := 2;
     debug := true |}.

(** A configuration that names a joiner file that is not there. *)
Definition config_no_joiner : OnlineTransducerModelConfig :=
  {| encoder_filename := "encoder.onnx";
     decoder_filename := "decoder.onnx";
     joiner_filename := "nowhere.onnx";
     num_threads := 2;
     debug := false |}.

(** The encoder metadata gives [d_model] a value that is not a number. *)
Definition env_bad_d_model : Env :=
  env_of (encoder_graph "3" "wide" "8") (decoder_graph decoder_meta).

(** The hypothesis of block 1 after one more token, in block 3. *)
Definition mem_grown : gmap N (list Z) :=
  list_to_map [(1%N, [0; 0; 17; 5; 9]); (3%N, [0; 0; 17; 5; 9; 4])].
Definition hyp_grown : vector_int64 :=
  {| vec_data := {| ptr_base := Heap 3; ptr_offset := 0 |}; vec_size := 6 |}.

End Fixture.

(* ===================================================================== *)
(** * Properties *)
(* ===================================================================== *)

(** ** Machine integers *)

Lemma to_int32_range z : Int.in_int32 (Int.to_int32 z).
Proof.
  unfold Int.in_int32, Int.to_int32, Int.INT_MIN, Int.INT_MAX.
  pose proof (Z.mod_pos_bound (z + 2 ^ 31) (2 ^ 32) ltac:(lia)). lia.
Qed.

Lemma to_int32_id z : Int.in_int32 z -> Int.to_int32 z = z.
Proof.
  unfold Int.in_int32, Int.to_int32, Int.INT_MIN, Int.INT_MAX. intros H.
  rewrite Z.mod_small; lia.
Qed.

Lemma mul32_exact a b : Int.in_int32 (a * b) -> Int.mul32 a b = a * b.
Proof. apply to_int32_id. Qed.

(** ** [atoi] *)

Example atoi_3x : CString.atoi "3x" = 3. Proof. reflexivity. Qed.
Example atoi_abc : CString.atoi "abc" = 0. Proof. reflexivity. Qed.
Example atoi_empty : CString.atoi "" = 0. Proof. reflexivity. Qed.
Example atoi_blank_sign : CString.atoi "  +12 7" = 12. Proof. reflexivity. Qed.
Example atoi_negative : CString.atoi "-5" = -5. Proof. reflexivity. Qed.
Example atoi_past_int : CString.atoi "4294967297" = 1. Proof. reflexivity. Qed.

Lemma atoi_range s : Int.in_int32 (CString.atoi s).
Proof. apply to_int32_range. Qed.

Lemma atoi_no_prefix s : CString.no_integer_prefix s -> CString.atoi s = 0.
Proof.
  unfold CString.no_integer_prefix, CString.atoi, CString.strtol10.
  destruct (CString.split_sign (CString.skip_space s)) as [neg digits].
  cbn [snd]. destruct digits as [|c rest]; cbn [CString.accumulate].
  - intros _. now destruct neg.
  - intros ->. now destruct neg.
Qed.

Lemma isdigit_not_space c : CString.isdigit c = true -> CString.isspace c = false.
Proof.
  unfold CString.isdigit, CString.isspace. intros H.
  apply andb_true_iff in H as [H1 H2].
  apply Z.leb_le in H1. apply Z.leb_le in H2.
  apply orb_false_iff; split.
  - apply Z.eqb_neq. lia.
  - apply andb_false_iff. right. apply Z.leb_gt. lia.
Qed.

Lemma isdigit_not_sign c :
  CString.isdigit c = true ->
  Ascii.eqb c "-" = false /\ Ascii.eqb c "+" = false.
Proof.
  intros H. split; apply Ascii.eqb_neq; intros ->; discriminate H.
Qed.

Lemma accumulate_digits ds : forall acc rest,
  CString.all_digits ds = true -> CString.stops_digits rest ->
  CString.accumulate acc (ds +:+ rest) = CString.decimal acc ds.
Proof.
  induction ds as [|c ds IH]; intros acc rest Hd Hr.
  - change ("" +:+ rest) with rest. cbn [CString.decimal].
    destruct rest as [|c r]; cbn [CString.accumulate]; [reflexivity|].
    cbn [CString.stops_digits] in Hr. now rewrite Hr.
  - cbn [CString.all_digits] in Hd. apply andb_true_iff in Hd as [Hc Hd].
    change (String c ds +:+ rest) with (String c (ds +:+ rest)).
    cbn [CString.accumulate CString.decimal]. rewrite Hc. now apply IH.
Qed.

Lemma decimal_nonneg ds : forall acc,
  0 <= acc -> CString.all_digits ds = true -> 0 <= CString.decimal acc ds.
Proof.
  induction ds as [|c ds IH]; intros acc Ha Hd; cbn [CString.decimal];
    [exact Ha|].
  cbn [CString.all_digits] in Hd. apply andb_true_iff in Hd as [Hc Hd].
  apply IH; [|exact Hd].
  unfold CString.isdigit in Hc. apply andb_true_iff in Hc as [H1 _].
  apply Z.leb_le in H1. unfold CString.digit_value. lia.
Qed.

Lemma atoi_digit_prefix ds rest :
  ds <> "" -> CString.all_digits ds = true -> CString.stops_digits rest ->
  CString.decimal 0 ds <= Int.INT_MAX ->
  CString.atoi (ds +:+ rest) = CString.decimal 0 ds.
Proof.
  intros Hne Hd Hr Hmax.
  pose proof (decimal_nonneg ds 0 ltac:(lia) Hd) as Hpos.
  unfold CString.atoi, CString.strtol10.
  destruct ds as [|c ds]; [congruence|].
  assert (Hc : CString.isdigit c = true).
  { cbn [CString.all_digits] in Hd. now apply andb_true_iff in Hd as [Hc _]. }
  change (String c ds +:+ rest) with (String c (ds +:+ rest)).
  cbn [CString.skip_space]. rewrite (isdigit_not_space c Hc).
  unfold CString.split_sign.
  destruct (isdigit_not_sign c Hc) as [-> ->].
  change (String c (ds +:+ rest)) with (String c ds +:+ rest).
  rewrite (accumulate_digits _ 0 rest Hd Hr).
  unfold Int.INT_MAX in Hmax.
  unfold CString.clamp_long, Int.LONG_MIN, Int.LONG_MAX.
  destruct (Z.ltb_spec (CString.decimal 0 (String c ds)) (-9223372036854775808));
    [lia|].
  destruct (Z.ltb_spec 9223372036854775807 (CString.decimal 0 (String c ds)));
    [lia|].
  apply to_int32_id. unfold Int.in_int32, Int.INT_MIN, Int.INT_MAX. lia.
Qed.

(** ** Sequencing *)

Lemma proc_bind_ret_l {A B} (a : A) (f : A -> Proc B) : mret a ≫= f = f a.
Proof. cbn. now destruct (f a). Qed.

Lemma proc_bind_ret_r {A} (m : Proc A) : m ≫= mret = m.
Proof. destruct m as [t [a| | |]]; cbn; now rewrite ?app_nil_r. Qed.

Lemma proc_bind_assoc {A B C} (m : Proc A) (f : A -> Proc B) (g : B -> Proc C) :
  (m ≫= f) ≫= g = m ≫= (fun a => f a ≫= g).
Proof.
  destruct m as [t [a| | |]]; cbn; try reflexivity.
  destruct (f a) as [t' [b| | |]]; cbn; try reflexivity.
  now rewrite app_assoc.
Qed.

(** Whatever ends the process or throws stops what would follow. *)
Lemma proc_bind_exit {A B} t status (f : A -> Proc B) :
  ((t, Exit status) : Proc A) ≫= f = (t, Exit status).
Proof. reflexivity. Qed.

(** ** The metadata reader *)

Lemma read_missing meta key :
  meta !! key = None ->
  SHERPA_ONNX_READ_META_DATA meta key
  = ([EvStderr (CString.fmt_missing key)], Exit (-1)).
Proof. unfold SHERPA_ONNX_READ_META_DATA. now intros ->. Qed.

Lemma read_invalid meta key v :
  meta !! key = Some v -> CString.atoi v <= 0 ->
  SHERPA_ONNX_READ_META_DATA meta key
  = ([EvStderr (CString.fmt_invalid (CString.atoi v) key)], Exit (-1)).
Proof.
  unfold SHERPA_ONNX_READ_META_DATA. intros -> H.
  cbv zeta. now destruct (Z.leb_spec (CString.atoi v) 0); [|lia].
Qed.

Lemma read_positive meta key v :
  meta !! key = Some v -> 0 < CString.atoi v ->
  SHERPA_ONNX_READ_META_DATA meta key = ([], Ret (CString.atoi v)).
Proof.
  unfold SHERPA_ONNX_READ_META_DATA. intros -> H.
  cbv zeta. now destruct (Z.leb_spec (CString.atoi v) 0); [lia|].
Qed.

(** Either the entry is positive and the read returns it without a
    trace, or the read writes one line to stderr and exits. *)
Lemma read_cases meta key :
  (positive_entry meta key
   /\ exists n, 0 < n <= Int.INT_MAX
                /\ SHERPA_ONNX_READ_META_DATA meta key = ([], Ret n))
  \/ (~ positive_entry meta key
      /\ exists text,
           SHERPA_ONNX_READ_META_DATA meta key = ([EvStderr text], Exit (-1))).
Proof.
  destruct (meta !! key) as [v|] eqn:E.
  - destruct (Z.lt_ge_cases 0 (CString.atoi v)) as [H|H].
    + left. split; [exists v; split; assumption|]. exists (CString.atoi v).
      pose proof (atoi_range v) as R. unfold Int.in_int32 in R.
      split; [lia|]. now apply read_positive.
    + right. split.
      * intros (v' & E' & H'). rewrite E in E'. injection E' as <-. lia.
      * eexists. apply (read_invalid meta key v E H).
  - right. split.
    + intros (v' & E' & _). congruence.
    + eexists. apply (read_missing meta key E).
Qed.

(** C4. Reading a required key ends the process with [exit(-1)] exactly
    when the key is absent or [atoi] of its value is at most 0; a value
    that [atoi] reads as positive is stored and the read returns, without
    output. The read never ends by an exception. *)
Theorem C4_read_meta_data_fatal_iff (meta : gmap string string) (key : string) :
  (result (SHERPA_ONNX_READ_META_DATA meta key) = Exit (-1)
   <-> (meta !! key = None
        \/ exists v, meta !! key = Some v /\ CString.atoi v <= 0))
  /\ (forall v, meta !! key = Some v -> 0 < CString.atoi v ->
        SHERPA_ONNX_READ_META_DATA meta key = ([], Ret (CString.atoi v)))
  /\ (forall what, result (SHERPA_ONNX_READ_META_DATA meta key) <> Throw what)
  /\ result (SHERPA_ONNX_READ_META_DATA meta key) <> Undefined.
Proof.
  split; [|split; [|split]].
  - split.
    + intros H. destruct (meta !! key) as [v|] eqn:E; [|now left].
      right. exists v. split; [reflexivity|].
      destruct (Z.lt_ge_cases 0 (CString.atoi v)) as [Hp|Hn]; [|exact Hn].
      rewrite (read_positive meta key v E Hp) in H. discriminate H.
    + intros [E | (v & E & Hv)].
      * now rewrite (read_missing meta key E).
      * now rewrite (read_invalid meta key v E Hv).
  - apply read_positive.
  - intros what.
    destruct (read_cases meta key) as [[_ (n & _ & ->)] | [_ (text & ->)]];
      discriminate.
  - destruct (read_cases meta key) as [[_ (n & _ & ->)] | [_ (text & ->)]];
      discriminate.
Qed.

Lemma C4_read_meta_data_fatal_iff_witness :
  Fixture.decoder_meta !! "context_size" = Some "2"
  /\ 0 < CString.atoi "2"
  /\ SHERPA_ONNX_READ_META_DATA Fixture.decoder_meta "context_size"
     = ([], Ret 2).
Proof.
  split; [reflexivity|]. split; [reflexivity|].
  apply (proj1 (proj2 (C4_read_meta_data_fatal_iff
                         Fixture.decoder_meta "context_size")) "2");
    reflexivity.
Defined.

(** *** [atoi] on each shape of value *)

Example isspace_characters :
  map CString.isspace
      [" "; "009"; "010"; "011"; "012"; "013"; "008"; "014"; "x"; "0"; "+"]%char
  = [true; true; true; true; true; true; false; false; false; false; false].
Proof. reflexivity. Qed.

Example isdigit_characters :
  map CString.isdigit ["0"; "9"; "/"; ":"; " "; "-"; "a"]%char
  = [true; true; false; false; false; false; false].
Proof. reflexivity. Qed.

Lemma append_nil_l (s : string) : "" +:+ s = s.
Proof. reflexivity. Qed.

Lemma append_cons c (s t : string) : String c s +:+ t = String c (s +:+ t).
Proof. reflexivity. Qed.

Lemma skip_space_spaces ws s :
  all_space ws = true ->
  match s with String c _ => CString.isspace c = false | EmptyString => True end ->
  CString.skip_space (ws +:+ s) = s.
Proof.
  intros Hws Hs. induction ws as [|c ws IH].
  - rewrite append_nil_l. destruct s as [|c s]; [reflexivity|].
    cbn [CString.skip_space]. now rewrite Hs.
  - cbn [all_space] in Hws. apply andb_true_iff in Hws as [Hc Hws].
    rewrite append_cons. cbn [CString.skip_space]. rewrite Hc. now apply IH.
Qed.

(** After the white space the sign is taken off, and nothing else. *)
Lemma head_of_value ws s tail :
  all_space ws = true ->
  (s = NoSign ->
   match tail with
   | String c _ =>
       CString.isspace c = false /\ c <> "+"%char /\ c <> "-"%char
   | EmptyString => True
   end) ->
  CString.split_sign (CString.skip_space (ws +:+ sign_text s +:+ tail))
  = (match s with Minus => true | NoSign | Plus => false end, tail).
Proof.
  intros Hws Ht. destruct s; cbn [sign_text].
  - rewrite append_nil_l. specialize (Ht eq_refl).
    rewrite skip_space_spaces; [|exact Hws|].
    + destruct tail as [|c tail]; [reflexivity|].
      destruct Ht as (_ & Hp & Hm). unfold CString.split_sign.
      apply Ascii.eqb_neq in Hp, Hm. now rewrite Hp, Hm.
    + destruct tail as [|c tail]; [exact I | apply Ht].
  - rewrite append_cons, append_nil_l.
    rewrite skip_space_spaces; [reflexivity | exact Hws | reflexivity].
  - rewrite append_cons, append_nil_l.
    rewrite skip_space_spaces; [reflexivity | exact Hws | reflexivity].
Qed.

Lemma to_int32_clamp_long z :
  Int.to_int32 (CString.clamp_long z) = as_int_of_long z.
Proof.
  unfold Int.to_int32, CString.clamp_long, as_int_of_long,
    Int.LONG_MIN, Int.LONG_MAX.
  destruct (Z.ltb_spec z (-9223372036854775808)).
  - now replace (Z.max (-9223372036854775808) (Z.min 9223372036854775807 z))
      with (-9223372036854775808) by lia.
  - destruct (Z.ltb_spec 9223372036854775807 z).
    + now replace (Z.max (-9223372036854775808) (Z.min 9223372036854775807 z))
        with 9223372036854775807 by lia.
    + now replace (Z.max (-9223372036854775808) (Z.min 9223372036854775807 z))
        with z by lia.
Qed.

Lemma atoi_without_number ws s body :
  all_space ws = true -> starts_no_number s body ->
  CString.atoi (ws +:+ sign_text s +:+ body) = 0.
Proof.
  intros Hws Hb. unfold CString.atoi, CString.strtol10.
  rewrite (head_of_value ws s body Hws).
  - assert (H0 : CString.accumulate 0 body = 0).
    { destruct body as [|c body]; [reflexivity|].
      cbn [CString.accumulate]. destruct Hb as [-> _]. reflexivity. }
    rewrite H0. now destruct s.
  - intros ->. destruct body as [|c body]; [exact I|].
    destruct Hb as [_ Hb]. now apply Hb.
Qed.

Lemma atoi_with_digits ws s ds rest :
  all_space ws = true -> ds <> "" -> CString.all_digits ds = true ->
  CString.stops_digits rest ->
  CString.atoi (ws +:+ sign_text s +:+ ds +:+ rest)
  = as_int_of_long (signed s (CString.decimal 0 ds)).
Proof.
  intros Hws Hne Hd Hr. unfold CString.atoi, CString.strtol10.
  rewrite (head_of_value ws s (ds +:+ rest) Hws).
  - rewrite (accumulate_digits ds 0 rest Hd Hr), <- to_int32_clamp_long.
    now destruct s.
  - intros _. destruct ds as [|c ds]; [congruence|].
    rewrite append_cons. cbn [CString.all_digits] in Hd.
    apply andb_true_iff in Hd as [Hc _].
    split; [now apply isdigit_not_space|].
    destruct (isdigit_not_sign c Hc) as [Hm Hp].
    apply Ascii.eqb_neq in Hm, Hp. now split.
Qed.

Lemma as_int_of_long_small z :
  -2147483648 <= z <= 2147483647 -> as_int_of_long z = z.
Proof.
  intros H. unfold as_int_of_long.
  replace (Z.max (-9223372036854775808) (Z.min 9223372036854775807 z))
    with z by lia.
  rewrite Z.mod_small; lia.
Qed.

(** Every value has one of the two shapes: no string is left out. *)
Lemma digits_then_rest (v : string) :
  exists ds rest,
    v = ds +:+ rest /\ CString.all_digits ds = true /\ CString.stops_digits rest.
Proof.
  induction v as [|c v (ds & rest & -> & Hd & Hr)].
  - exists "", "". repeat split.
  - destruct (CString.isdigit c) eqn:Hc.
    + exists (String c ds), rest. split; [reflexivity|].
      split; [cbn [CString.all_digits]; now rewrite Hc, Hd | exact Hr].
    + exists "", (String c (ds +:+ rest)). split; [reflexivity|].
      split; [reflexivity | exact Hc].
Qed.

Lemma number_or_not (s : sign) (v : string) :
  (s = NoSign ->
   match v with
   | String c _ =>
       CString.isspace c = false /\ c <> "+"%char /\ c <> "-"%char
   | EmptyString => True
   end) ->
  starts_no_number s v
  \/ exists ds rest,
       v = ds +:+ rest /\ ds <> "" /\ CString.all_digits ds = true
       /\ CString.stops_digits rest.
Proof.
  intros Hv. destruct (digits_then_rest v) as (ds & rest & -> & Hd & Hr).
  destruct ds as [|c ds].
  - left. rewrite append_nil_l in *. destruct rest as [|c rest]; [exact I|].
    split; [exact Hr | exact Hv].
  - right. exists (String c ds), rest. now repeat split.
Qed.

Lemma value_has_a_shape (v : string) :
  exists ws s,
    all_space ws = true
    /\ ((exists body, v = ws +:+ sign_text s +:+ body /\ starts_no_number s body)
        \/ (exists ds rest,
              v = ws +:+ sign_text s +:+ ds +:+ rest /\ ds <> ""
              /\ CString.all_digits ds = true /\ CString.stops_digits rest)).
Proof.
  induction v as [|c v (ws & s & Hws & IH)].
  - exists "", NoSign. split; [reflexivity|]. left. now exists "".
  - destruct (CString.isspace c) eqn:Hsp.
    { exists (String c ws), s. split; [cbn [all_space]; now rewrite Hsp, Hws|].
      destruct IH as [(body & -> & Hb) | (ds & rest & -> & H)].
      - left. now exists body.
      - right. now exists ds, rest. }
    clear ws s Hws IH.
    destruct (Ascii.eqb_spec c "+") as [->|Hp].
    { exists "", Plus. split; [reflexivity|].
      destruct (number_or_not Plus v ltac:(discriminate))
        as [Hb | (ds & rest & -> & H)].
      - left. now exists v.
      - right. now exists ds, rest. }
    destruct (Ascii.eqb_spec c "-") as [->|Hm].
    { exists "", Minus. split; [reflexivity|].
      destruct (number_or_not Minus v ltac:(discriminate))
        as [Hb | (ds & rest & -> & H)].
      - left. now exists v.
      - right. now exists ds, rest. }
    exists "", NoSign. split; [reflexivity|].
    destruct (number_or_not NoSign (String c v) ltac:(now intros _))
      as [Hb | (ds & rest & E & H)].
    + left. now exists (String c v).
    + right. exists ds, rest. now rewrite E in *.
Qed.

(** C9, as amended. The value of a present key is read the way [atoi]
    reads it: white space, an optional sign, digits; what follows the
    digits is not looked at. A value in which no digit follows the white
    space and the sign reads as 0, and the process exits through the
    branch for values that are not positive. A value with digits reads as
    the number they write, with its sign, held in a [long] that saturates
    and cut to an [int]; when the sign is not a minus and the number is
    positive and at most INT_MAX = 2147483647, this is the number itself,
    and the read stores it. *)
Theorem C9_atoi_prefix_semantics (meta : gmap string string)
    (key v ws : string) (s : sign) :
  meta !! key = Some v ->
  all_space ws = true ->
  (forall body,
     v = ws +:+ sign_text s +:+ body -> starts_no_number s body ->
     CString.atoi v = 0
     /\ SHERPA_ONNX_READ_META_DATA meta key
        = ([EvStderr (CString.fmt_invalid 0 key)], Exit (-1)))
  /\ (forall ds rest,
        v = ws +:+ sign_text s +:+ ds +:+ rest ->
        ds <> "" -> CString.all_digits ds = true ->
        CString.stops_digits rest ->
        CString.atoi v = as_int_of_long (signed s (CString.decimal 0 ds))
        /\ (s <> Minus -> 0 < CString.decimal 0 ds <= 2147483647 ->
            CString.atoi v = CString.decimal 0 ds
            /\ SHERPA_ONNX_READ_META_DATA meta key
               = ([], Ret (CString.decimal 0 ds)))).
Proof.
  intros E Hws. split.
  - intros body -> Hb.
    pose proof (atoi_without_number ws s body Hws Hb) as H0.
    split; [exact H0|].
    rewrite (read_invalid meta key _ E); [|lia]. now rewrite H0.
  - intros ds rest -> Hne Hd Hr.
    pose proof (atoi_with_digits ws s ds rest Hws Hne Hd Hr) as Ha.
    split; [exact Ha|]. intros Hs Hn.
    assert (Hv : CString.atoi (ws +:+ sign_text s +:+ ds +:+ rest)
                 = CString.decimal 0 ds).
    { rewrite Ha. replace (signed s (CString.decimal 0 ds))
        with (CString.decimal 0 ds) by now destruct s.
      apply as_int_of_long_small. lia. }
    split; [exact Hv|].
    rewrite (read_positive meta key _ E); [|lia]. now rewrite Hv.
Qed.

Lemma C9_atoi_prefix_semantics_witness :
  (CString.atoi "abc" = 0
   /\ SHERPA_ONNX_READ_META_DATA (Fixture.meta_of [("T", "abc")]) "T"
      = ([EvStderr (CString.fmt_invalid 0 "T")], Exit (-1)))
  /\ (CString.atoi " +42x" = 42
      /\ SHERPA_ONNX_READ_META_DATA (Fixture.meta_of [("T", " +42x")]) "T"
         = ([], Ret 42))
  /\ CString.atoi "-5" = -5.
Proof.
  split; [|split].
  - apply (proj1 (C9_atoi_prefix_semantics
                    (Fixture.meta_of [("T", "abc")]) "T" "abc" "" NoSign
                    ltac:(reflexivity) ltac:(reflexivity)) "abc");
      [reflexivity|].
    split; [reflexivity|]. intros _.
    split; [reflexivity | split; discriminate].
  - apply (proj2 (C9_atoi_prefix_semantics
                    (Fixture.meta_of [("T", " +42x")]) "T" " +42x" " " Plus
                    ltac:(reflexivity) ltac:(reflexivity)) "42" "x");
      [reflexivity | discriminate | reflexivity | reflexivity
      | discriminate | split; [reflexivity | discriminate]].
  - apply (proj2 (C9_atoi_prefix_semantics
                    (Fixture.meta_of [("T", "-5")]) "T" "-5" "" Minus
                    ltac:(reflexivity) ltac:(reflexivity)) "5" "");
      [reflexivity | discriminate | reflexivity | exact I].
Defined.

(** Without the bound the statement fails: "2147483648x" starts with the
    digits of a positive integer and goes on with a letter, and the read
    ends the process; "4294967297x" is accepted, as 1. *)
Lemma C9_prefix_beyond_int_counterexample :
  ~ (forall (meta : gmap string string) (key ds rest : string),
       meta !! key = Some (ds +:+ rest) ->
       ds <> "" -> CString.all_digits ds = true ->
       CString.stops_digits rest -> 0 < CString.decimal 0 ds ->
       SHERPA_ONNX_READ_META_DATA meta key
       = ([], Ret (CString.decimal 0 ds))).
Proof.
  intros H.
  specialize (H (Fixture.meta_of [("T", "2147483648x")]) "T"
                "2147483648" "x" eq_refl ltac:(discriminate) eq_refl eq_refl
                eq_refl).
  discriminate H.
Qed.

Example values_beyond_int :
  SHERPA_ONNX_READ_META_DATA (Fixture.meta_of [("T", "2147483648x")]) "T"
  = ([EvStderr (CString.fmt_invalid (-2147483648) "T")], Exit (-1))
  /\ SHERPA_ONNX_READ_META_DATA (Fixture.meta_of [("T", "4294967297x")]) "T"
     = ([], Ret 1)
  /\ SHERPA_ONNX_READ_META_DATA
       (Fixture.meta_of [("T", "99999999999999999999")]) "T"
     = ([EvStderr (CString.fmt_invalid (-1) "T")], Exit (-1)).
Proof. repeat split. Qed.

(** ** Loading the three sub-models *)

Ltac proc_step :=
  cbn [mbind Proc_bind proc_bind mret Proc_ret trace result fst snd app
       emit fprintf_stderr exit throw undefined].

(** Settle the read of [k] in the goal, both ways. *)
Ltac read_key k :=
  match goal with
  | |- context [SHERPA_ONNX_READ_META_DATA ?m k] =>
      let Hp := fresh "Hp" in
      let Hn := fresh "Hn" in
      let n := fresh "n" in
      let text := fresh "text" in
      destruct (read_cases m k)
        as [[Hp (n & Hn & ->)] | [Hp (text & ->)]];
      proc_step
  end.

Lemma debug_dump_stderr env config title sess :
  exists t, debug_dump env config title sess = (t, Ret tt)
            /\ no_run t /\ sessions_created t = [].
Proof.
  unfold debug_dump. destruct (debug config); eexists; (split; [reflexivity|]);
    split; reflexivity.
Qed.

Lemma no_run_app t1 t2 : no_run t1 -> no_run t2 -> no_run (t1 ++ t2).
Proof. unfold no_run. rewrite forallb_app. now intros -> ->. Qed.

Lemma sessions_created_app t1 t2 :
  sessions_created (t1 ++ t2) = sessions_created t1 ++ sessions_created t2.
Proof. unfold sessions_created. apply omap_app. Qed.

Create HintDb proc_trace.
#[local] Hint Resolve no_run_app : proc_trace.

Lemma InitEncoder_unloadable env config opts path :
  open_model env path = None ->
  exists what, InitEncoder env config opts path = ([], Throw what).
Proof. unfold InitEncoder, Session_new. intros ->. now eexists. Qed.

Lemma InitDecoder_unloadable env config opts path :
  open_model env path = None ->
  exists what, InitDecoder env config opts path = ([], Throw what).
Proof. unfold InitDecoder, Session_new. intros ->. now eexists. Qed.

Lemma InitJoiner_unloadable env config opts path :
  open_model env path = None ->
  exists what, InitJoiner env config opts path = ([], Throw what).
Proof. unfold InitJoiner, Session_new. intros ->. now eexists. Qed.

Lemma no_run_created p o t : no_run t -> no_run (EvSessionCreated p o :: t).
Proof. exact (fun H => H). Qed.

Lemma no_run_stderr text t : no_run t -> no_run (EvStderr text :: t).
Proof. exact (fun H => H). Qed.

Lemma sessions_created_stderr_only td text :
  sessions_created td = [] -> sessions_created (td ++ [EvStderr text]) = [].
Proof. intros H. now rewrite sessions_created_app, H. Qed.

Lemma sessions_created_nil_r td :
  sessions_created td = [] -> sessions_created (td ++ []) = [].
Proof. intros H. now rewrite sessions_created_app, H. Qed.

(** The parts of the goals below that do not depend on the metadata. *)
Ltac init_trace td Hq Hs :=
  do 2 eexists; (split; [reflexivity|]);
  (split; [apply no_run_created, (no_run_app td); [exact Hq | reflexivity]|]);
  (split; [change (sessions_created (EvSessionCreated ?p ?o :: ?t))
             with ((p, o) :: sessions_created t);
           first [ rewrite (sessions_created_nil_r td Hs)
                 | rewrite (sessions_created_stderr_only td _ Hs) ];
           reflexivity|]).

Lemma InitEncoder_loaded env config opts path g :
  open_model env path = Some g ->
  exists t o,
    InitEncoder env config opts path = (t, o)
    /\ no_run t
    /\ sessions_created t = [(path, opts)]
    /\ ((Forall (positive_entry (custom_metadata g)) encoder_keys
         /\ exists e, o = Ret e
              /\ encoder_sess_ e = created path opts g
              /\ 0 < num_encoder_layers_ e <= Int.INT_MAX
              /\ 0 < rnn_hidden_size_ e <= Int.INT_MAX
              /\ 0 < d_model_ e <= Int.INT_MAX)
        \/ (~ Forall (positive_entry (custom_metadata g)) encoder_keys
            /\ o = Exit (-1))).
Proof.
  intros E. unfold InitEncoder, Session_new. rewrite E. proc_step.
  destruct (debug_dump_stderr env config "---encoder---" (created path opts g))
    as (td & -> & Hq & Hs).
  unfold encoder_keys. proc_step. cbn [created session_model].
  read_key "num_encoder_layers"; [read_key "T"|];
    [read_key "decode_chunk_len"|..];
    [read_key "rnn_hidden_size"|..];
    [read_key "d_model"|..];
    init_trace td Hq Hs;
    try (right; split; [|reflexivity]; rewrite !Forall_cons; tauto).
  left. split; [repeat constructor; assumption|].
  eexists. split; [reflexivity|]. cbn. auto.
Qed.

Lemma InitDecoder_loaded env config opts path g :
  open_model env path = Some g ->
  exists t o,
    InitDecoder env config opts path = (t, o)
    /\ no_run t
    /\ sessions_created t = [(path, opts)]
    /\ ((Forall (positive_entry (custom_metadata g)) decoder_keys
         /\ exists d, o = Ret d
              /\ decoder_sess_ d = created path opts g
              /\ 0 < context_size_ d <= Int.INT_MAX)
        \/ (~ Forall (positive_entry (custom_metadata g)) decoder_keys
            /\ o = Exit (-1))).
Proof.
  intros E. unfold InitDecoder, Session_new. rewrite E. proc_step.
  destruct (debug_dump_stderr env config "---decoder---" (created path opts g))
    as (td & -> & Hq & Hs).
  unfold decoder_keys. proc_step. cbn [created session_model].
  read_key "vocab_size"; [read_key "context_size"|];
    init_trace td Hq Hs;
    try (right; split; [|reflexivity]; rewrite !Forall_cons; tauto).
  left. split; [repeat constructor; assumption|].
  eexists. split; [reflexivity|]. cbn. auto.
Qed.

Lemma InitJoiner_loaded env config opts path g :
  open_model env path = Some g ->
  exists t j,
    InitJoiner env config opts path = (t, Ret j)
    /\ no_run t
    /\ sessions_created t = [(path, opts)]
    /\ joiner_sess_ j = created path opts g.
Proof.
  intros E. unfold InitJoiner, Session_new. rewrite E. proc_step.
  destruct (debug_dump_stderr env config "---joiner---" (created path opts g))
    as (td & -> & Hq & Hs).
  proc_step. init_trace td Hq Hs. reflexivity.
Qed.

Lemma InitDecoder_no_vocab_size env config opts path g :
  open_model env path = Some g ->
  custom_metadata g !! "vocab_size" = None ->
  exists t,
    InitDecoder env config opts path = (t, Exit (-1))
    /\ last t = Some (EvStderr (CString.fmt_missing "vocab_size")).
Proof.
  intros E Hv. unfold InitDecoder, Session_new. rewrite E. proc_step.
  destruct (debug_dump_stderr env config "---decoder---" (created path opts g))
    as (td & -> & _ & _).
  proc_step. cbn [created session_model].
  rewrite (read_missing _ _ Hv). proc_step.
  eexists. split; [reflexivity|].
  change (EvSessionCreated path opts :: td ++ ?l)
    with ((EvSessionCreated path opts :: td) ++ l).
  apply last_snoc.
Qed.

Lemma not_positive_when_absent meta key :
  meta !! key = None -> ~ positive_entry meta key.
Proof. intros E (v & Ev & _). congruence. Qed.

(** C6. With the three files loadable, construction returns a model
    exactly when the encoder metadata gives a positive integer to each of
    num_encoder_layers, T, decode_chunk_len, rnn_hidden_size and d_model,
    and the decoder metadata to each of vocab_size and context_size;
    otherwise the process exits. No graph is executed during construction.
    A decoder without vocab_size ends the process with [exit(-1)], and when
    the encoder entries are in order the last thing written is the message
    about vocab_size. *)
Theorem C6_required_metadata_keys (env : Env)
    (config : OnlineTransducerModelConfig) (enc dec : OnnxModel) :
  open_model env (encoder_filename config) = Some enc ->
  open_model env (decoder_filename config) = Some dec ->
  let r := OnlineLstmTransducerModel_new env config in
  (forall joi, open_model env (joiner_filename config) = Some joi ->
     ((exists m, result r = Ret m)
      <-> Forall (positive_entry (custom_metadata enc)) encoder_keys
          /\ Forall (positive_entry (custom_metadata dec)) decoder_keys)
     /\ ((exists m, result r = Ret m) \/ result r = Exit (-1)))
  /\ no_run (trace r)
  /\ (custom_metadata dec !! "vocab_size" = None ->
        result r = Exit (-1)
        /\ (Forall (positive_entry (custom_metadata enc)) encoder_keys ->
              last (trace r)
              = Some (EvStderr (CString.fmt_missing "vocab_size")))).
Proof.
  intros Ee Ed. unfold OnlineLstmTransducerModel_new. cbv zeta.
  set (opts := SetInterOpNumThreads _ _).
  destruct (InitEncoder_loaded env config opts _ enc Ee)
    as (te & oe & -> & Hre & _ & [[HFe (e & -> & _)] | [HnFe ->]]);
    proc_step.
  2:{ split; [|split].
      - intros joi _. split; [|now right].
        split; [intros (m & Hm); discriminate Hm | tauto].
      - exact Hre.
      - intros _. split; [reflexivity | tauto]. }
  destruct (InitDecoder_loaded env config opts _ dec Ed)
    as (td & od & Hd & Hrd & _ & [[HFd (d & -> & _)] | [HnFd ->]]).
  2:{ rewrite Hd. proc_step. split; [|split].
      - intros joi _. split; [|now right].
        split; [intros (m & Hm); discriminate Hm | tauto].
      - now apply no_run_app.
      - intros Hv. split; [reflexivity|]. intros _.
        destruct (InitDecoder_no_vocab_size env config opts _ dec Ed Hv)
          as (td' & Hd' & Hlast).
        rewrite Hd in Hd'. injection Hd' as <-.
        destruct td as [|x td]; [discriminate Hlast|].
        now rewrite last_app, Hlast. }
  rewrite Hd. proc_step. split; [|split].
  - intros joi Ej.
    destruct (InitJoiner_loaded env config opts _ joi Ej)
      as (tj & j & -> & _). proc_step.
    split; [|left; now eexists].
    split; [tauto | intros _; now eexists].
  - destruct (open_model env (joiner_filename config)) as [joi|] eqn:Ej.
    + destruct (InitJoiner_loaded env config opts _ joi Ej)
        as (tj & j & -> & Hrj & _). proc_step.
      assert (no_run []) by reflexivity. auto 6 with proc_trace.
    + destruct (InitJoiner_unloadable env config opts _ Ej) as (w & ->).
      assert (no_run []) by reflexivity. auto with proc_trace.
  - intros Hv. exfalso.
    apply (not_positive_when_absent _ _ Hv).
    unfold decoder_keys in HFd. now apply Forall_cons in HFd as [H _].
Qed.

Lemma C6_required_metadata_keys_witness :
  (exists m, result (OnlineLstmTransducerModel_new Fixture.env Fixture.config)
             = Ret m)
  /\ result (OnlineLstmTransducerModel_new Fixture.env_no_vocab Fixture.config)
     = Exit (-1)
  /\ no_run (trace (OnlineLstmTransducerModel_new Fixture.env_no_vocab
                      Fixture.config))
  /\ last (trace (OnlineLstmTransducerModel_new Fixture.env_no_vocab
                    Fixture.config))
     = Some (EvStderr (CString.fmt_missing "vocab_size")).
Proof.
  assert (Henc : Forall (positive_entry
                           (custom_metadata (Fixture.encoder_graph "3" "4" "8")))
                        encoder_keys).
  { repeat constructor; eexists; split; reflexivity. }
  split; [|split; [|split]].
  - apply (proj1 (C6_required_metadata_keys Fixture.env Fixture.config
                    (Fixture.encoder_graph "3" "4" "8")
                    (Fixture.decoder_graph Fixture.decoder_meta)
                    eq_refl eq_refl) Fixture.joiner_graph eq_refl).
    split; [exact Henc|].
    repeat constructor; eexists; split; reflexivity.
  - apply (proj2 (proj2 (C6_required_metadata_keys Fixture.env_no_vocab
                           Fixture.config _ _ eq_refl eq_refl))).
    reflexivity.
  - apply (proj1 (proj2 (C6_required_metadata_keys Fixture.env_no_vocab
                           Fixture.config _ _ eq_refl eq_refl))).
  - apply (proj2 (proj2 (C6_required_metadata_keys Fixture.env_no_vocab
                           Fixture.config _ _ eq_refl eq_refl)));
      [reflexivity | exact Henc].
Defined.

(** C8. Every session the constructor creates gets the configured thread
    count both as intra-op and as inter-op count; when construction
    returns, the sessions are those of the encoder, the decoder and the
    joiner, in this order, all three with these options. *)
Theorem C8_thread_count_uniform (env : Env)
    (config : OnlineTransducerModelConfig) :
  let r := OnlineLstmTransducerModel_new env config in
  Forall (fun po => po.2 = thread_options config) (sessions_created (trace r))
  /\ (forall m, result r = Ret m ->
        sess_opts_ m = thread_options config
        /\ session_options (encoder_sess_ (encoder_ m)) = thread_options config
        /\ session_options (decoder_sess_ (decoder_ m)) = thread_options config
        /\ session_options (joiner_sess_ (joiner_ m)) = thread_options config
        /\ sessions_created (trace r)
           = [(encoder_filename config, thread_options config);
              (decoder_filename config, thread_options config);
              (joiner_filename config, thread_options config)]).
Proof.
  unfold OnlineLstmTransducerModel_new. cbv zeta.
  change (SetInterOpNumThreads _ _) with (thread_options config).
  set (opts := thread_options config).
  destruct (open_model env (encoder_filename config)) as [enc|] eqn:Ee.
  2:{ destruct (InitEncoder_unloadable env config opts _ Ee) as (w & ->).
      proc_step. split; [constructor | discriminate]. }
  destruct (InitEncoder_loaded env config opts _ enc Ee)
    as (te & oe & -> & _ & Hse & [[_ (e & -> & Hes & _)] | [_ ->]]);
    proc_step.
  2:{ rewrite Hse. split; [now repeat constructor | discriminate]. }
  destruct (open_model env (decoder_filename config)) as [dec|] eqn:Ed.
  2:{ destruct (InitDecoder_unloadable env config opts _ Ed) as (w & ->).
      proc_step. rewrite app_nil_r, Hse.
      split; [now repeat constructor | discriminate]. }
  destruct (InitDecoder_loaded env config opts _ dec Ed)
    as (td & od & -> & _ & Hsd & [[_ (d & -> & Hds & _)] | [_ ->]]);
    proc_step.
  2:{ rewrite sessions_created_app, Hse, Hsd.
      split; [now repeat constructor | discriminate]. }
  destruct (open_model env (joiner_filename config)) as [joi|] eqn:Ej.
  2:{ destruct (InitJoiner_unloadable env config opts _ Ej) as (w & ->).
      proc_step. rewrite app_nil_r, sessions_created_app, Hse, Hsd.
      split; [now repeat constructor | discriminate]. }
  destruct (InitJoiner_loaded env config opts _ joi Ej)
    as (tj & j & -> & _ & Hsj & Hjs).
  proc_step. rewrite app_nil_r, !sessions_created_app, Hse, Hsd, Hsj.
  split; [now repeat constructor|].
  intros m [= <-]. cbn [sess_opts_ encoder_ decoder_ joiner_].
  rewrite Hes, Hds, Hjs. repeat split; reflexivity.
Qed.

Lemma C8_thread_count_uniform_witness :
  exists m,
    result (OnlineLstmTransducerModel_new Fixture.env Fixture.config) = Ret m
    /\ session_options (encoder_sess_ (encoder_ m))
       = {| intra_op_num_threads := 2; inter_op_num_threads := 2 |}
    /\ session_options (decoder_sess_ (decoder_ m))
       = {| intra_op_num_threads := 2; inter_op_num_threads := 2 |}
    /\ session_options (joiner_sess_ (joiner_ m))
       = {| intra_op_num_threads := 2; inter_op_num_threads := 2 |}.
Proof.
  eexists. split; [reflexivity|].
  destruct (proj2 (C8_thread_count_uniform Fixture.env Fixture.config)
              _ eq_refl) as (_ & He & Hd & Hj & _).
  exact (conj He (conj Hd Hj)).
Defined.

(** Construction from the fixture files yields the fixture models. *)
Example fixture_model_constructed :
  result (OnlineLstmTransducerModel_new Fixture.env Fixture.config)
  = Ret Fixture.model.
Proof. reflexivity. Qed.

Example fixture_model_huge_constructed :
  result (OnlineLstmTransducerModel_new Fixture.env_huge Fixture.config)
  = Ret Fixture.model_huge.
Proof. reflexivity. Qed.

Example fixture_no_vocab_trace :
  OnlineLstmTransducerModel_new Fixture.env_no_vocab Fixture.config
  = ([EvSessionCreated "encoder.onnx" (thread_options Fixture.config);
      EvSessionCreated "decoder.onnx" (thread_options Fixture.config);
      EvStderr (CString.fmt_missing "vocab_size")],
     Exit (-1)).
Proof. reflexivity. Qed.

(** ** The recurrent state: stacking, and the initial state *)

(** C1. Unstacking what [StackStates] returns yields the empty vector,
    whatever the states were: for a sequence with at least one state the
    round trip does not give the sequence back. Both functions only write
    their reminder to stderr. *)
Theorem C1_unstack_stack_returns_nothing
    (self : OnlineLstmTransducerModel) (s : Value) (rest : list Value) :
  let round_trip := StackStates self (s :: rest) ≫= UnStackStates self in
  result round_trip = Ret []
  /\ result round_trip <> Ret (s :: rest)
  /\ trace round_trip
     = [EvStderr (CString.fmt_implement_me "StackStates" 120);
        EvStderr (CString.fmt_implement_me "UnStackStates" 132)].
Proof. cbv zeta. split; [reflexivity|]. split; [discriminate | reflexivity]. Qed.

Example stack_unstack_one_state :
  let h := Fixture.constant [3; 1; 4] float_zero in
  StackStates Fixture.model [h] ≫= UnStackStates Fixture.model
  = ([EvStderr ("implement me: StackStates:120!" +:+ CString.nl);
      EvStderr ("implement me: UnStackStates:132!" +:+ CString.nl)],
     Ret []).
Proof. reflexivity. Qed.

Lemma fill_float_all dims data n x :
  n = element_count dims -> 0 <= n ->
  exists v,
    fill_float (TensorValue {| shape := dims; store := OwnedFloat data |}) n x
    = Some v
    /\ value_shape v = Some dims
    /\ forall i, 0 <= i < element_count dims -> float_at v i = Some x.
Proof.
  intros -> Hn. unfold fill_float.
  destruct (Z.leb_spec 0 (element_count dims)); [|lia].
  rewrite Z.leb_refl. cbn [andb].
  eexists. split; [reflexivity|]. split; [reflexivity|].
  intros i [Hi1 Hi2]. unfold float_at.
  destruct (Z.leb_spec 0 i); [|lia].
  destruct (Z.ltb_spec i (element_count dims)); [|lia].
  reflexivity.
Qed.

Lemma element_count_3 a b c : element_count [a; b; c] = a * b * c.
Proof. unfold element_count. cbn [fold_right]. lia. Qed.

Lemma mul32_batch L D :
  0 < L -> 0 < D -> L * D <= Int.INT_MAX ->
  Int.mul32 (Int.mul32 L 1) D = element_count [L; 1; D].
Proof.
  intros HL HD H. rewrite element_count_3.
  assert (HLr : L <= Int.INT_MAX) by nia.
  unfold Int.INT_MAX in *.
  rewrite (mul32_exact L 1)
    by (unfold Int.in_int32, Int.INT_MIN, Int.INT_MAX; lia).
  rewrite mul32_exact
    by (unfold Int.in_int32, Int.INT_MIN, Int.INT_MAX; nia).
  reflexivity.
Qed.

(** As long as the two element counts fit an [int], the initial state is
    what the specification describes, whatever the allocator handed out:
    a hidden tensor [layers, 1, d_model] and a cell tensor
    [layers, 1, rnn_hidden_size], all zero. *)
Lemma GetEncoderInitStates_zero_in_range (self : OnlineLstmTransducerModel) :
  let L := num_encoder_layers_ (encoder_ self) in
  let D := d_model_ (encoder_ self) in
  let R := rnn_hidden_size_ (encoder_ self) in
  0 < L -> 0 < D -> 0 < R ->
  L * D <= Int.INT_MAX -> L * R <= Int.INT_MAX ->
  exists h c alloc,
    GetEncoderInitStates self = Some ([h; c], alloc)
    /\ value_shape h = Some [L; 1; D]
    /\ value_shape c = Some [L; 1; R]
    /\ (forall i, 0 <= i < L * 1 * D -> float_at h i = Some float_zero)
    /\ (forall i, 0 <= i < L * 1 * R -> float_at c i = Some float_zero).
Proof.
  cbv zeta. intros HL HD HR HLD HLR.
  unfold GetEncoderInitStates, CreateTensor_float, Allocator_alloc.
  cbv zeta. cbn [fst snd].
  rewrite (mul32_batch _ _ HL HD HLD), (mul32_batch _ _ HL HR HLR).
  destruct (fill_float_all
              [num_encoder_layers_ (encoder_ self); 1; d_model_ (encoder_ self)]
              (allocator_ self 0%nat) _ (float_of_int 0) eq_refl)
    as (h & -> & Hhs & Hh); [rewrite element_count_3; nia|].
  cbn [mbind option_bind].
  destruct (fill_float_all
              [num_encoder_layers_ (encoder_ self); 1;
               rnn_hidden_size_ (encoder_ self)]
              (allocator_ self 1%nat) _ (float_of_int 0) eq_refl)
    as (c & -> & Hcs & Hc); [rewrite element_count_3; nia|].
  cbn [mbind option_bind app].
  exists h, c. eexists. split; [reflexivity|].
  rewrite element_count_3 in Hh, Hc. auto.
Qed.

Example init_states_3_4_8 :
  exists h c alloc,
    GetEncoderInitStates Fixture.model = Some ([h; c], alloc)
    /\ value_shape h = Some [3; 1; 4]
    /\ value_shape c = Some [3; 1; 8]
    /\ float_at h 11 = Some float_zero
    /\ float_at c 23 = Some float_zero
    /\ float_at h 12 = None.
Proof. do 3 eexists. repeat split. Qed.

(** C3. With 65536 layers of width 65536 in the metadata, the model is
    constructed and the hidden tensor has shape [65536, 1, 65536], but the
    element count given to [std::fill] is the [int] product, which is 0: no
    element is written, and the tensor holds what the allocator handed
    out. *)
Theorem C3_init_state_not_zeroed_on_int_overflow :
  result (OnlineLstmTransducerModel_new Fixture.env_huge Fixture.config)
  = Ret Fixture.model_huge
  /\ Int.mul32 (Int.mul32 65536 1) 65536 = 0
  /\ exists h c alloc,
       GetEncoderInitStates Fixture.model_huge = Some ([h; c], alloc)
       /\ value_shape h = Some [65536; 1; 65536]
       /\ float_at h 0 = Some float_one
       /\ float_one <> float_zero.
Proof.
  split; [reflexivity|]. split; [reflexivity|].
  do 3 eexists. split; [reflexivity|]. split; [reflexivity|].
  split; [reflexivity | discriminate].
Qed.

(** ** The decoder input *)

Section DecoderInput.

Variable self : OnlineLstmTransducerModel.
Variable mem : gmap N (list Z).

Let cs : Z := context_size_ (decoder_ self).

Hypothesis context_size_positive : 0 < cs.

(** The tensor [BuildDecoderInput] makes, spelled out. *)
Lemma BuildDecoderInput_value hyp b :
  vec_data hyp = {| ptr_base := Heap b; ptr_offset := 0 |} ->
  BuildDecoderInput self hyp
  = TensorValue
      {| shape := [1; cs];
         store := BorrowedInt64
                    {| ptr_base := Heap b; ptr_offset := vec_size hyp - cs |}
                    cs |}.
Proof.
  intros E. unfold BuildDecoderInput, CreateTensor_int64, ptr_add. rewrite E.
  cbn [ptr_base ptr_offset]. repeat f_equal; lia.
Qed.

(** Read through memory, it shows the last [context_size] tokens. *)
Lemma BuildDecoderInput_reads_suffix hyp toks :
  holds mem hyp toks -> cs <= Z.of_nat (length toks) ->
  int64_elements mem (BuildDecoderInput self hyp)
  = Some (drop (length toks - Z.to_nat cs) toks).
Proof.
  intros (b & Ed & Em & Es) Hlen.
  rewrite (BuildDecoderInput_value hyp b Ed). unfold int64_elements.
  rewrite Em, Es.
  destruct (Z.leb_spec 0 (Z.of_nat (length toks) - cs)); [|lia].
  destruct (Z.leb_spec 0 cs); [|lia].
  destruct (Z.leb_spec (Z.of_nat (length toks) - cs + cs)
                       (Z.of_nat (length toks))); [|lia].
  cbn [andb]. f_equal.
  replace (Z.to_nat (Z.of_nat (length toks) - cs))
    with (length toks - Z.to_nat cs)%nat by lia.
  apply take_ge. rewrite length_drop. lia.
Qed.

(** With too few tokens the reference starts before the first one. *)
Lemma BuildDecoderInput_short hyp toks :
  holds mem hyp toks -> Z.of_nat (length toks) < cs ->
  int64_elements mem (BuildDecoderInput self hyp) = None.
Proof.
  intros (b & Ed & Em & Es) Hlen.
  rewrite (BuildDecoderInput_value hyp b Ed). unfold int64_elements.
  rewrite Em, Es.
  destruct (Z.leb_spec 0 (Z.of_nat (length toks) - cs)); [lia|].
  reflexivity.
Qed.

End DecoderInput.

(** C2. For a hypothesis of at least [context_size] tokens the tensor has
    shape [1, context_size] and shows the last [context_size] tokens in
    their order. It holds no copy: it points into the storage of the
    hypothesis, so that tokens stored there afterwards are what the tensor
    shows. A shorter hypothesis is not refused: a tensor is returned all
    the same, and it points before the first token. *)
Theorem C2_build_decoder_input (self : OnlineLstmTransducerModel)
    (mem : gmap N (list Z)) (hyp : vector_int64) (toks : list Z) :
  let cs := context_size_ (decoder_ self) in
  let input := BuildDecoderInput self hyp in
  0 < cs -> holds mem hyp toks ->
  (cs <= Z.of_nat (length toks) ->
     value_shape input = Some [1; cs]
     /\ int64_elements mem input = Some (drop (length toks - Z.to_nat cs) toks)
     /\ Z.of_nat (length (drop (length toks - Z.to_nat cs) toks)) = cs
     /\ exists b,
          vec_data hyp = {| ptr_base := Heap b; ptr_offset := 0 |}
          /\ input = CreateTensor_int64
                       {| ptr_base := Heap b;
                          ptr_offset := Z.of_nat (length toks) - cs |}
                       cs [1; cs]
          /\ forall toks', length toks' = length toks ->
               int64_elements (<[b := toks']> mem) input
               = Some (drop (length toks - Z.to_nat cs) toks'))
  /\ (Z.of_nat (length toks) < cs ->
        value_shape input = Some [1; cs]
        /\ int64_elements mem input = None).
Proof.
  cbv zeta. intros Hcs Hh. split.
  - intros Hlen.
    pose proof (BuildDecoderInput_reads_suffix self mem Hcs hyp toks Hh Hlen)
      as Hread.
    destruct Hh as (b & Ed & Em & Es).
    split; [reflexivity|]. split; [exact Hread|].
    split; [rewrite length_drop; lia|].
    exists b. split; [exact Ed|]. split.
    + rewrite (BuildDecoderInput_value self hyp b Ed), Es. reflexivity.
    + intros toks' Hl'.
      rewrite (BuildDecoderInput_reads_suffix self (<[b := toks']> mem) Hcs
                 hyp toks'); [now rewrite Hl' | | lia].
      exists b. split; [exact Ed|]. split; [apply lookup_insert_eq|].
      now rewrite Hl'.
  - intros Hlen. split; [reflexivity|].
    exact (BuildDecoderInput_short self mem hyp toks Hh Hlen).
Qed.

Lemma C2_build_decoder_input_witness :
  (value_shape (BuildDecoderInput Fixture.model Fixture.hyp1) = Some [1; 2]
   /\ int64_elements Fixture.mem (BuildDecoderInput Fixture.model Fixture.hyp1)
      = Some [5; 9])
  /\ int64_elements Fixture.mem_short
       (BuildDecoderInput Fixture.model Fixture.hyp_short) = None.
Proof.
  split.
  - destruct (proj1 (C2_build_decoder_input Fixture.model Fixture.mem
                       Fixture.hyp1 [0; 0; 17; 5; 9] ltac:(reflexivity)
                       (ex_intro _ 1%N (conj eq_refl (conj eq_refl eq_refl))))
                ltac:(discriminate)) as (Hs & Hr & _).
    exact (conj Hs Hr).
  - apply (proj2 (C2_build_decoder_input Fixture.model Fixture.mem_short
                    Fixture.hyp_short [0] ltac:(reflexivity)
                    (ex_intro _ 1%N (conj eq_refl (conj eq_refl eq_refl))))).
    reflexivity.
Defined.

(** C7. Two hypotheses of at least [context_size] tokens that agree on
    their last [context_size] tokens give decoder inputs of the same shape
    showing the same elements, whatever the earlier tokens are. *)
Theorem C7_only_trailing_tokens_read (self : OnlineLstmTransducerModel)
    (mem : gmap N (list Z)) (hyp1 hyp2 : vector_int64) (toks1 toks2 : list Z) :
  let cs := context_size_ (decoder_ self) in
  0 < cs -> holds mem hyp1 toks1 -> holds mem hyp2 toks2 ->
  cs <= Z.of_nat (length toks1) -> cs <= Z.of_nat (length toks2) ->
  drop (length toks1 - Z.to_nat cs) toks1
  = drop (length toks2 - Z.to_nat cs) toks2 ->
  value_shape (BuildDecoderInput self hyp1)
  = value_shape (BuildDecoderInput self hyp2)
  /\ int64_elements mem (BuildDecoderInput self hyp1)
     = int64_elements mem (BuildDecoderInput self hyp2)
  /\ int64_elements mem (BuildDecoderInput self hyp1)
     = Some (drop (length toks1 - Z.to_nat cs) toks1).
Proof.
  cbv zeta. intros Hcs H1 H2 L1 L2 Hsame.
  rewrite (BuildDecoderInput_reads_suffix self mem Hcs hyp1 toks1 H1 L1).
  rewrite (BuildDecoderInput_reads_suffix self mem Hcs hyp2 toks2 H2 L2).
  split; [reflexivity|]. split; [now rewrite Hsame | reflexivity].
Qed.

Lemma C7_only_trailing_tokens_read_witness :
  value_shape (BuildDecoderInput Fixture.model Fixture.hyp1)
  = value_shape (BuildDecoderInput Fixture.model Fixture.hyp2)
  /\ int64_elements Fixture.mem (BuildDecoderInput Fixture.model Fixture.hyp1)
     = int64_elements Fixture.mem (BuildDecoderInput Fixture.model Fixture.hyp2)
  /\ int64_elements Fixture.mem (BuildDecoderInput Fixture.model Fixture.hyp1)
     = Some [5; 9].
Proof.
  apply (C7_only_trailing_tokens_read Fixture.model Fixture.mem
           Fixture.hyp1 Fixture.hyp2 [0; 0; 17; 5; 9] [3; 5; 9]);
    [ reflexivity
    | exact (ex_intro _ 1%N (conj eq_refl (conj eq_refl eq_refl)))
    | exact (ex_intro _ 2%N (conj eq_refl (conj eq_refl eq_refl)))
    | discriminate | discriminate | reflexivity ].
Defined.

Example build_from_padding :
  let mem : gmap N (list Z) := list_to_map [(1%N, [0; 0; 0])] in
  let hyp := {| vec_data := {| ptr_base := Heap 1; ptr_offset := 0 |};
                vec_size := 3 |} in
  value_shape (BuildDecoderInput Fixture.model hyp) = Some [1; 2]
  /\ int64_elements mem (BuildDecoderInput Fixture.model hyp) = Some [0; 0].
Proof. split; reflexivity. Qed.

(** ** Running the encoder *)

(** C5. [RunEncoder] executes the encoder graph once, on three inputs:
    the features, then the hidden state, then the cell state, under the
    first three input names of the session, asking for the outputs the
    session declares. Of what comes back it uses three values: the first
    is returned as the encoder output, the second and the third, in this
    order, as the next state. The two states the caller passed are moved
    from. *)
Theorem C5_run_encoder_plumbing (self : OnlineLstmTransducerModel)
    (features h c : Value) (rest : list Value)
    (n0 n1 n2 : string) (names : list string)
    (o0 o1 o2 : Value) (more : list Value) :
  let sess := encoder_sess_ (encoder_ self) in
  let out_names := encoder_output_names_ (encoder_ self) in
  let inputs := [(n0, features); (n1, h); (n2, c)] in
  encoder_input_names_ (encoder_ self) = n0 :: n1 :: n2 :: names ->
  graph_run (session_model sess) inputs out_names
  = Some (o0 :: o1 :: o2 :: more) ->
  RunEncoder self features (h :: c :: rest)
  = ([EvRun (session_path sess) inputs out_names],
     Ret (o0, [o1; o2], NullValue :: NullValue :: rest)).
Proof.
  cbv zeta. intros Hn Hrun. unfold RunEncoder, vector_at, Session_Run.
  cbn [lookup list_lookup]. proc_step. rewrite Hn.
  change (zip (take (length [features; h; c]) (n0 :: n1 :: n2 :: names))
              [features; h; c])
    with [(n0, features); (n1, h); (n2, c)].
  cbn [length Nat.ltb Nat.leb]. proc_step.
  rewrite Hrun. reflexivity.
Qed.

Lemma C5_run_encoder_plumbing_witness :
  let x := Fixture.constant [1; 9; 80] float_one in
  let h := Fixture.constant [3; 1; 4] float_zero in
  let c := Fixture.constant [3; 1; 8] float_zero in
  RunEncoder Fixture.model x [h; c]
  = ([EvRun "encoder.onnx" [("x", x); ("h0", h); ("c0", c)]
            ["encoder_out"; "next_h0"; "next_c0"]],
     Ret (x, [h; c], [NullValue; NullValue])).
Proof.
  cbv zeta.
  apply (C5_run_encoder_plumbing Fixture.model _ _ _ [] "x" "h0" "c0" []
           _ _ _ []); reflexivity.
Defined.

(** Without a second state, or with fewer than three outputs, the
    indexing has no defined result. *)
Example run_encoder_one_state :
  result (RunEncoder Fixture.model NullValue [NullValue]) = Undefined.
Proof. reflexivity. Qed.

(** One chunk through the fixture model: initial state, encoder, decoder
    input from a padded hypothesis, decoder, joiner. *)
Example one_chunk :
  let x := Fixture.constant [1; 9; 80] float_one in
  let step :=
    match GetEncoderInitStates Fixture.model with
    | Some (states, _) =>
        '(encoder_out, next_states, _) ← RunEncoder Fixture.model x states;
        decoder_out ← RunDecoder Fixture.model
                        (BuildDecoderInput Fixture.model Fixture.hyp1);
        logit ← RunJoiner Fixture.model encoder_out decoder_out;
        mret (logit, next_states)
    | None => undefined
    end in
  (exists h c,
     result step = Ret (x, [h; c])
     /\ value_shape h = Some [3; 1; 4] /\ value_shape c = Some [3; 1; 8])
  /\ map (fun e => match e with EvRun path _ _ => path | _ => "" end)
         (trace step)
     = ["encoder.onnx"; "decoder.onnx"; "joiner.onnx"].
Proof. split; [do 2 eexists; repeat split | reflexivity]. Qed.

(** ** The Zipformer example *)

(** C10. When the wave cannot be read, [main] prints its message and
    returns -1: no recognizer is created. When the wave is read and no
    recognizer can be created, [main] prints its message, frees the wave
    and returns -1: no stream is created and nothing is decoded. *)
Theorem C10_main_early_failures (api : Zipformer.CApi) :
  (Zipformer.SherpaOnnxReadWave api Zipformer.wav_filename = None ->
     Zipformer.main api
     = ([Zipformer.ReadWave Zipformer.wav_filename;
         Zipformer.Fprintf ("Failed to read " +:+ Zipformer.wav_filename
                            +:+ CString.nl)],
        -1)
     /\ existsb Zipformer.creates_recognizer (fst (Zipformer.main api)) = false)
  /\ (forall wave,
        Zipformer.SherpaOnnxReadWave api Zipformer.wav_filename = Some wave ->
        Zipformer.SherpaOnnxCreateOfflineRecognizer api
          Zipformer.recognizer_config = None ->
        Zipformer.main api
        = ([Zipformer.ReadWave Zipformer.wav_filename;
            Zipformer.CreateOfflineRecognizer Zipformer.recognizer_config;
            Zipformer.Fprintf ("Please check your config!" +:+ CString.nl);
            Zipformer.FreeWave wave],
           -1)
        /\ existsb Zipformer.creates_stream (fst (Zipformer.main api)) = false
        /\ existsb Zipformer.decodes (fst (Zipformer.main api)) = false
        /\ existsb Zipformer.frees_wave (fst (Zipformer.main api)) = true).
Proof.
  split.
  - intros Hw. unfold Zipformer.main, Zipformer.does.
    cbn [mbind mret Zipformer.Prog_bind Zipformer.Prog_ret fst snd app].
    rewrite Hw. split; reflexivity.
  - intros wave Hw Hr. unfold Zipformer.main, Zipformer.does.
    cbn [mbind mret Zipformer.Prog_bind Zipformer.Prog_ret fst snd app].
    rewrite Hw.
    cbn [mbind mret Zipformer.Prog_bind Zipformer.Prog_ret fst snd app].
    rewrite Hr. repeat split; reflexivity.
Qed.

Lemma C10_main_early_failures_witness :
  snd (Zipformer.main Fixture.api_no_wave) = -1
  /\ existsb Zipformer.creates_recognizer
       (fst (Zipformer.main Fixture.api_no_wave)) = false
  /\ snd (Zipformer.main Fixture.api_no_recognizer) = -1
  /\ existsb Zipformer.creates_stream
       (fst (Zipformer.main Fixture.api_no_recognizer)) = false.
Proof.
  destruct (proj1 (C10_main_early_failures Fixture.api_no_wave) eq_refl)
    as [H1 H2].
  destruct (proj2 (C10_main_early_failures Fixture.api_no_recognizer)
              Fixture.wave eq_refl eq_refl) as (H3 & H4 & _).
  split; [now rewrite H1|]. split; [exact H2|].
  split; [now rewrite H3 | exact H4].
Defined.

Example main_all_calls :
  Zipformer.main Fixture.api_ok
  = ([Zipformer.ReadWave Zipformer.wav_filename;
      Zipformer.CreateOfflineRecognizer Zipformer.recognizer_config;
      Zipformer.CreateOfflineStream 1%N;
      Zipformer.AcceptWaveformOffline 2%N 16000 [float_zero; float_one] 2;
      Zipformer.DecodeOfflineStream 1%N 2%N;
      Zipformer.GetOfflineStreamResult 2%N;
      Zipformer.Fprintf ("Decoded text: HELLO" +:+ CString.nl);
      Zipformer.DestroyOfflineRecognizerResult {| Zipformer.text := "HELLO" |};
      Zipformer.DestroyOfflineStream 2%N;
      Zipformer.DestroyOfflineRecognizer 1%N;
      Zipformer.FreeWave Fixture.wave],
     0).
Proof. reflexivity. Qed.

(* ===================================================================== *)
(** * Further properties of the code *)
(* ===================================================================== *)

(** ** Loading, stage by stage *)

Lemma read_spec meta key :
  SHERPA_ONNX_READ_META_DATA meta key
  = if entry_ok meta key then ([], Ret (meta_int meta key))
    else ([EvStderr (diagnostic meta key)], Exit (-1)).
Proof.
  unfold SHERPA_ONNX_READ_META_DATA, entry_ok, meta_int, diagnostic.
  destruct (meta !! key) as [v|]; [|reflexivity]. cbv zeta.
  destruct (Z.leb_spec (CString.atoi v) 0), (Z.ltb_spec 0 (CString.atoi v));
    try lia; reflexivity.
Qed.

Lemma entry_ok_positive meta key :
  entry_ok meta key = true <-> positive_entry meta key.
Proof.
  unfold entry_ok, positive_entry. destruct (meta !! key) as [v|].
  - rewrite Z.ltb_lt. split; [intros H; now exists v|].
    now intros (v' & [= <-] & H).
  - split; [discriminate | now intros (v' & E & _)].
Qed.

Lemma entry_ok_range meta key :
  entry_ok meta key = true -> 0 < meta_int meta key <= Int.INT_MAX.
Proof.
  unfold entry_ok, meta_int. destruct (meta !! key) as [v|]; [|discriminate].
  rewrite Z.ltb_lt. pose proof (atoi_range v) as R.
  unfold Int.in_int32 in R. lia.
Qed.

Lemma first_rejected_none meta keys :
  first_rejected meta keys = None <-> Forall (positive_entry meta) keys.
Proof.
  unfold first_rejected. induction keys as [|k keys IH]; cbn [find].
  - split; [constructor | reflexivity].
  - rewrite Forall_cons, <- entry_ok_positive, <- IH.
    destruct (entry_ok meta k); cbn [negb]; split; try tauto; try discriminate.
    now intros [? _].
Qed.

Lemma first_rejected_some meta keys k :
  first_rejected meta keys = Some k ->
  k ∈ keys /\ ~ positive_entry meta k
  /\ ~ Forall (positive_entry meta) keys.
Proof.
  intros H. assert (Hn : first_rejected meta keys <> None) by congruence.
  rewrite first_rejected_none in Hn.
  unfold first_rejected in H. apply find_some in H as [Hin Hk].
  split; [now apply list_elem_of_In|]. split; [|exact Hn].
  rewrite <- entry_ok_positive. now destruct (entry_ok meta k).
Qed.

(** Settle the read of [k] in the goal by the value of [entry_ok]. *)
Ltac read_by_entry k :=
  rewrite (read_spec _ k);
  let E := fresh "Eok" in
  destruct (entry_ok _ k) eqn:E; cbn [negb]; proc_step.

Lemma InitEncoder_eq env config opts path g :
  open_model env path = Some g ->
  InitEncoder env config opts path
  = let meta := custom_metadata g in
    let loaded := loading_events env config opts "---encoder---" path g in
    match first_rejected meta encoder_keys with
    | Some k => (loaded ++ [EvStderr (diagnostic meta k)], Exit (-1))
    | None =>
        (loaded,
         Ret {| encoder_sess_ := created path opts g;
                encoder_input_names_ := graph_inputs g;
                encoder_output_names_ := graph_outputs g;
                num_encoder_layers_ := meta_int meta "num_encoder_layers";
                T_ := meta_int meta "T";
                decode_chunk_len_ := meta_int meta "decode_chunk_len";
                rnn_hidden_size_ := meta_int meta "rnn_hidden_size";
                d_model_ := meta_int meta "d_model" |})
    end.
Proof.
  intros E. unfold InitEncoder, Session_new, debug_dump, loading_events.
  rewrite E. cbv zeta. unfold first_rejected, encoder_keys. cbn [find].
  cbn [created session_model].
  destruct (debug config); proc_step;
    (read_by_entry "num_encoder_layers"; [|reflexivity]);
    (read_by_entry "T"; [|reflexivity]);
    (read_by_entry "decode_chunk_len"; [|reflexivity]);
    (read_by_entry "rnn_hidden_size"; [|reflexivity]);
    (read_by_entry "d_model"; reflexivity).
Qed.

Lemma InitDecoder_eq env config opts path g :
  open_model env path = Some g ->
  InitDecoder env config opts path
  = let meta := custom_metadata g in
    let loaded := loading_events env config opts "---decoder---" path g in
    match first_rejected meta decoder_keys with
    | Some k => (loaded ++ [EvStderr (diagnostic meta k)], Exit (-1))
    | None =>
        (loaded,
         Ret {| decoder_sess_ := created path opts g;
                decoder_input_names_ := graph_inputs g;
                decoder_output_names_ := graph_outputs g;
                vocab_size_ := meta_int meta "vocab_size";
                context_size_ := meta_int meta "context_size" |})
    end.
Proof.
  intros E. unfold InitDecoder, Session_new, debug_dump, loading_events.
  rewrite E. cbv zeta. unfold first_rejected, decoder_keys. cbn [find].
  cbn [created session_model].
  destruct (debug config); proc_step;
    (read_by_entry "vocab_size"; [|reflexivity]);
    (read_by_entry "context_size"; reflexivity).
Qed.

Lemma InitJoiner_eq env config opts path g :
  open_model env path = Some g ->
  InitJoiner env config opts path
  = (loading_events env config opts "---joiner---" path g,
     Ret {| joiner_sess_ := created path opts g;
            joiner_input_names_ := graph_inputs g;
            joiner_output_names_ := graph_outputs g |}).
Proof.
  intros E. unfold InitJoiner, Session_new, debug_dump, loading_events.
  rewrite E. now destruct (debug config).
Qed.

Lemma stands_in_order env path keys g :
  open_model env path = Some g ->
  first_rejected (custom_metadata g) keys = None ->
  in_order env path keys /\ ~ deficient env path keys /\ ~ unloadable env path.
Proof.
  intros E F. apply first_rejected_none in F.
  split; [now exists g|]. split.
  - intros (g' & E' & H). rewrite E in E'. injection E' as <-. tauto.
  - unfold unloadable. congruence.
Qed.

Lemma stands_deficient env path keys g k :
  open_model env path = Some g ->
  first_rejected (custom_metadata g) keys = Some k ->
  deficient env path keys /\ ~ in_order env path keys /\ ~ unloadable env path.
Proof.
  intros E F. apply first_rejected_some in F as (_ & _ & F).
  split; [now exists g|]. split.
  - intros (g' & E' & H). rewrite E in E'. injection E' as <-. tauto.
  - unfold unloadable. congruence.
Qed.

Lemma stands_unloadable env path keys :
  open_model env path = None ->
  unloadable env path /\ ~ in_order env path keys /\ ~ deficient env path keys.
Proof.
  intros E. split; [exact E|].
  split; intros (g & E' & _); congruence.
Qed.

(** The six ways construction can go, with the trace and the result
    computed in each. The facts about the three files are left in the
    context. *)
Ltac construction_cases env config :=
  unfold OnlineLstmTransducerModel_new; cbv zeta;
  change (SetInterOpNumThreads _ _) with (thread_options config);
  let enc := fresh "enc" in let dec := fresh "dec" in let joi := fresh "joi" in
  let Ee := fresh "Ee" in let Ed := fresh "Ed" in let Ej := fresh "Ej" in
  let Fe := fresh "Fe" in let Fd := fresh "Fd" in
  let w := fresh "w" in let k := fresh "k" in
  destruct (open_model env (encoder_filename config)) as [enc|] eqn:Ee;
  [ rewrite (InitEncoder_eq env config _ _ enc Ee); cbv zeta;
    destruct (first_rejected (custom_metadata enc) encoder_keys) as [k|] eqn:Fe;
    proc_step;
    [ pose proof (stands_deficient env _ _ enc k Ee Fe)
    | pose proof (stands_in_order env _ _ enc Ee Fe);
      destruct (open_model env (decoder_filename config)) as [dec|] eqn:Ed;
      [ rewrite (InitDecoder_eq env config _ _ dec Ed); cbv zeta;
        destruct (first_rejected (custom_metadata dec) decoder_keys)
          as [k|] eqn:Fd;
        proc_step;
        [ pose proof (stands_deficient env _ _ dec k Ed Fd)
        | pose proof (stands_in_order env _ _ dec Ed Fd);
          destruct (open_model env (joiner_filename config)) as [joi|] eqn:Ej;
          [ rewrite (InitJoiner_eq env config _ _ joi Ej); proc_step;
            pose proof (stands_in_order env _ [] joi Ej eq_refl)
          | destruct (InitJoiner_unloadable env config
                        (thread_options config) _ Ej) as (w & ->);
            proc_step;
            pose proof (stands_unloadable env _ [] Ej) ] ]
      | destruct (InitDecoder_unloadable env config
                    (thread_options config) _ Ed) as (w & ->);
        proc_step;
        pose proof (stands_unloadable env _ decoder_keys Ed) ] ]
  | destruct (InitEncoder_unloadable env config
                (thread_options config) _ Ee) as (w & ->);
    proc_step;
    pose proof (stands_unloadable env _ encoder_keys Ee) ].

(** Close one side of a statement about a computed result. *)
Ltac settle :=
  first [ solve [tauto]
        | solve [intros (? & [=])]
        | solve [intros [=]]
        | solve [intros; eauto]
        | solve [intros ? [=]]
        | solve [intros ? [= <-]; reflexivity]
        | solve [intros; exfalso; tauto] ].

(** Construction returns a model exactly when the three files load and
    the encoder and decoder metadata are in order. It ends the process,
    with status -1, exactly when the first file that is not in order, in
    the order encoder, decoder, joiner, loads but lacks an accepted entry;
    it throws exactly when that file does not load. Nothing else can
    happen. *)
Theorem construction_outcome (env : Env)
    (config : OnlineTransducerModelConfig) :
  let r := result (OnlineLstmTransducerModel_new env config) in
  let E := encoder_filename config in
  let D := decoder_filename config in
  let J := joiner_filename config in
  ((exists m, r = Ret m)
   <-> in_order env E encoder_keys /\ in_order env D decoder_keys
       /\ in_order env J [])
  /\ (r = Exit (-1)
      <-> deficient env E encoder_keys
          \/ (in_order env E encoder_keys /\ deficient env D decoder_keys))
  /\ ((exists w, r = Throw w)
      <-> unloadable env E
          \/ (in_order env E encoder_keys /\ unloadable env D)
          \/ (in_order env E encoder_keys /\ in_order env D decoder_keys
              /\ unloadable env J))
  /\ r <> Undefined
  /\ (forall status, r = Exit status -> status = -1).
Proof.
  cbv zeta.
  assert (Hj : ~ deficient env (joiner_filename config) []).
  { intros (g & _ & H). apply H. constructor. }
  construction_cases env config;
    (split; [split; settle|]);
    (split; [split; settle|]);
    (split; [split; settle|]);
    (split; [discriminate | settle]).
Qed.

Lemma construction_outcome_witness :
  (exists m, result (OnlineLstmTransducerModel_new Fixture.env Fixture.config)
             = Ret m)
  /\ result (OnlineLstmTransducerModel_new Fixture.env_bad_d_model
               Fixture.config) = Exit (-1)
  /\ (exists w, result (OnlineLstmTransducerModel_new Fixture.env
                          Fixture.config_no_joiner) = Throw w).
Proof.
  assert (He : in_order Fixture.env "encoder.onnx" encoder_keys).
  { eexists. split; [reflexivity|].
    repeat constructor; eexists; split; reflexivity. }
  assert (Hd : in_order Fixture.env "decoder.onnx" decoder_keys).
  { eexists. split; [reflexivity|].
    repeat constructor; eexists; split; reflexivity. }
  split; [|split].
  - apply (proj1 (construction_outcome Fixture.env Fixture.config)).
    split; [exact He|]. split; [exact Hd|].
    eexists. split; [reflexivity | constructor].
  - apply (proj1 (proj2 (construction_outcome Fixture.env_bad_d_model
                           Fixture.config))).
    left. eexists. split; [reflexivity|].
    intros H. apply first_rejected_none in H. discriminate H.
  - apply (proj1 (proj2 (proj2 (construction_outcome Fixture.env
                                  Fixture.config_no_joiner)))).
    right. right. split; [exact He|]. split; [exact Hd | reflexivity].
Defined.

(** The sessions are created in the order encoder, decoder, joiner, and a
    failure stops the sequence: once the encoder metadata is rejected only
    the encoder session exists, once the decoder metadata is rejected only
    the encoder and decoder sessions, and an encoder file that does not
    load leaves no trace at all. *)
Theorem construction_stops_at_first_failure (env : Env)
    (config : OnlineTransducerModelConfig) :
  let r := OnlineLstmTransducerModel_new env config in
  let opts := thread_options config in
  let E := encoder_filename config in
  let D := decoder_filename config in
  let J := joiner_filename config in
  sessions_created (trace r) `prefix_of` [(E, opts); (D, opts); (J, opts)]
  /\ (deficient env E encoder_keys ->
        sessions_created (trace r) = [(E, opts)])
  /\ (in_order env E encoder_keys -> deficient env D decoder_keys ->
        sessions_created (trace r) = [(E, opts); (D, opts)])
  /\ (unloadable env E -> trace r = []).
Proof.
  cbv zeta. construction_cases env config;
    unfold loading_events;
    rewrite ?sessions_created_app;
    destruct (debug config);
    cbn [sessions_created omap app];
    (split; [|split; [|split]; intros; first [reflexivity | exfalso; tauto]]).
  all: try (now eexists).
  all: try (exists []; now rewrite app_nil_r).
Qed.

Lemma construction_stops_at_first_failure_witness :
  sessions_created
    (trace (OnlineLstmTransducerModel_new Fixture.env_bad_d_model
              Fixture.config))
  = [("encoder.onnx", thread_options Fixture.config)]
  /\ sessions_created
       (trace (OnlineLstmTransducerModel_new Fixture.env_no_vocab
                 Fixture.config))
     = [("encoder.onnx", thread_options Fixture.config);
        ("decoder.onnx", thread_options Fixture.config)].
Proof.
  assert (He : in_order Fixture.env_no_vocab "encoder.onnx" encoder_keys).
  { eexists. split; [reflexivity|].
    repeat constructor; eexists; split; reflexivity. }
  split.
  - apply (proj1 (proj2 (construction_stops_at_first_failure
                           Fixture.env_bad_d_model Fixture.config))).
    eexists. split; [reflexivity|].
    intros H. apply first_rejected_none in H. discriminate H.
  - apply (proj1 (proj2 (proj2 (construction_stops_at_first_failure
                                  Fixture.env_no_vocab Fixture.config))));
      [exact He|].
    eexists. split; [reflexivity|].
    intros H. apply first_rejected_none in H. discriminate H.
Defined.

(** The line that ends a failed load names the first key, in reading
    order, whose entry is not accepted: "does not exist" for a key that is
    absent, "Invalud value" with the number read for one that is not
    positive. Later keys are not looked at. *)
Theorem construction_reports_first_rejected_key (env : Env)
    (config : OnlineTransducerModelConfig) :
  let r := OnlineLstmTransducerModel_new env config in
  (forall enc k,
     open_model env (encoder_filename config) = Some enc ->
     first_rejected (custom_metadata enc) encoder_keys = Some k ->
     result r = Exit (-1)
     /\ last (trace r) = Some (EvStderr (diagnostic (custom_metadata enc) k)))
  /\ (forall dec k,
        in_order env (encoder_filename config) encoder_keys ->
        open_model env (decoder_filename config) = Some dec ->
        first_rejected (custom_metadata dec) decoder_keys = Some k ->
        result r = Exit (-1)
        /\ last (trace r)
           = Some (EvStderr (diagnostic (custom_metadata dec) k))).
Proof.
  cbv zeta. split.
  - intros enc0 k0 E0 F0.
    construction_cases env config; try congruence.
    injection E0 as <-. rewrite F0 in Fe.
    injection Fe as ->. split; [reflexivity | apply last_snoc].
  - intros dec0 k0 He E0 F0.
    construction_cases env config; try congruence; try tauto.
    injection E0 as <-. rewrite F0 in Fd.
    injection Fd as ->. split; [reflexivity|].
    rewrite app_assoc. apply last_snoc.
Qed.

Lemma construction_reports_first_rejected_key_witness :
  last (trace (OnlineLstmTransducerModel_new Fixture.env_bad_d_model
                 Fixture.config))
  = Some (EvStderr (CString.fmt_invalid 0 "d_model"))
  /\ last (trace (OnlineLstmTransducerModel_new Fixture.env_no_vocab
                    Fixture.config))
     = Some (EvStderr (CString.fmt_missing "vocab_size")).
Proof.
  split.
  - apply (proj1 (construction_reports_first_rejected_key
                    Fixture.env_bad_d_model Fixture.config)
             _ "d_model" eq_refl eq_refl).
  - refine (proj2 (proj2 (construction_reports_first_rejected_key
                            Fixture.env_no_vocab Fixture.config)
                     _ "vocab_size" _ eq_refl eq_refl)).
    eexists. split; [reflexivity|].
    repeat constructor; eexists; split; reflexivity.
Defined.

(** A model that construction returns is determined by the configuration
    and the three files: its dimensions are the integers [atoi] reads from
    the seven metadata entries, each between 1 and INT_MAX, its name lists
    are the ones the files declare, and its three sessions carry the
    configured thread count. *)
Theorem constructed_model_invariant (env : Env)
    (config : OnlineTransducerModelConfig) (m : OnlineLstmTransducerModel) :
  result (OnlineLstmTransducerModel_new env config) = Ret m ->
  exists enc dec joi,
    open_model env (encoder_filename config) = Some enc
    /\ open_model env (decoder_filename config) = Some dec
    /\ open_model env (joiner_filename config) = Some joi
    /\ m = {| config_ := config;
              sess_opts_ := thread_options config;
              allocator_ := default_allocator env;
              encoder_ :=
                {| encoder_sess_ := created (encoder_filename config)
                                      (thread_options config) enc;
                   encoder_input_names_ := graph_inputs enc;
                   encoder_output_names_ := graph_outputs enc;
                   num_encoder_layers_ :=
                     meta_int (custom_metadata enc) "num_encoder_layers";
                   T_ := meta_int (custom_metadata enc) "T";
                   decode_chunk_len_ :=
                     meta_int (custom_metadata enc) "decode_chunk_len";
                   rnn_hidden_size_ :=
                     meta_int (custom_metadata enc) "rnn_hidden_size";
                   d_model_ := meta_int (custom_metadata enc) "d_model" |};
              decoder_ :=
                {| decoder_sess_ := created (decoder_filename config)
                                      (thread_options config) dec;
                   decoder_input_names_ := graph_inputs dec;
                   decoder_output_names_ := graph_outputs dec;
                   vocab_size_ := meta_int (custom_metadata dec) "vocab_size";
                   context_size_ :=
                     meta_int (custom_metadata dec) "context_size" |};
              joiner_ :=
                {| joiner_sess_ := created (joiner_filename config)
                                     (thread_options config) joi;
                   joiner_input_names_ := graph_inputs joi;
                   joiner_output_names_ := graph_outputs joi |} |}
    /\ Forall (fun n => 0 < n <= Int.INT_MAX)
         [num_encoder_layers_ (encoder_ m); T_ (encoder_ m);
          decode_chunk_len_ (encoder_ m); rnn_hidden_size_ (encoder_ m);
          d_model_ (encoder_ m); vocab_size_ (decoder_ m);
          context_size_ (decoder_ m)].
Proof.
  revert m. construction_cases env config; intros m [= <-].
  exists enc, dec, joi. repeat (split; [reflexivity|]).
  apply first_rejected_none in Fe, Fd.
  rewrite Forall_forall in Fe, Fd.
  cbn [encoder_ decoder_ num_encoder_layers_ T_ decode_chunk_len_
       rnn_hidden_size_ d_model_ vocab_size_ context_size_].
  repeat (apply Forall_cons; split); try solve [constructor];
    apply entry_ok_range, entry_ok_positive;
    first [ apply Fe; unfold encoder_keys; solve [repeat constructor]
          | apply Fd; unfold decoder_keys; solve [repeat constructor] ].
Qed.

Lemma constructed_model_invariant_witness :
  exists enc dec joi,
    open_model Fixture.env "encoder.onnx" = Some enc
    /\ open_model Fixture.env "decoder.onnx" = Some dec
    /\ open_model Fixture.env "joiner.onnx" = Some joi
    /\ num_encoder_layers_ (encoder_ Fixture.model)
       = meta_int (custom_metadata enc) "num_encoder_layers"
    /\ context_size_ (decoder_ Fixture.model)
       = meta_int (custom_metadata dec) "context_size".
Proof.
  destruct (constructed_model_invariant Fixture.env Fixture.config
              Fixture.model eq_refl)
    as (enc & dec & joi & He & Hd & Hj & Hm & _).
  exists enc, dec, joi. repeat (split; [assumption|]).
  rewrite Hm. split; reflexivity.
Defined.

(** On a successful load the trace is, for the encoder, the decoder and
    the joiner in this order, the creation of the session followed, in
    debug mode only, by one dump of its metadata on stderr. Without debug
    a successful load writes nothing. *)
Theorem construction_trace_on_success (env : Env)
    (config : OnlineTransducerModelConfig) (m : OnlineLstmTransducerModel) :
  let r := OnlineLstmTransducerModel_new env config in
  let opts := thread_options config in
  result r = Ret m ->
  trace r
  = loading_events env config opts "---encoder---" (encoder_filename config)
      (session_model (encoder_sess_ (encoder_ m)))
    ++ loading_events env config opts "---decoder---" (decoder_filename config)
         (session_model (decoder_sess_ (decoder_ m)))
    ++ loading_events env config opts "---joiner---" (joiner_filename config)
         (session_model (joiner_sess_ (joiner_ m)))
  /\ (debug config = false -> existsb is_stderr (trace r) = false)
  /\ (debug config = true -> length (filter is_stderr (trace r)) = 3%nat).
Proof.
  cbv zeta. revert m. construction_cases env config; intros m [= <-].
  cbn [encoder_ decoder_ joiner_ encoder_sess_ decoder_sess_ joiner_sess_
       created session_model].
  rewrite app_nil_r. split; [reflexivity|].
  unfold loading_events.
  split; intros ->; reflexivity.
Qed.

Lemma construction_trace_on_success_witness :
  trace (OnlineLstmTransducerModel_new Fixture.env Fixture.config)
  = [EvSessionCreated "encoder.onnx" (thread_options Fixture.config);
     EvSessionCreated "decoder.onnx" (thread_options Fixture.config);
     EvSessionCreated "joiner.onnx" (thread_options Fixture.config)].
Proof.
  exact (proj1 (construction_trace_on_success Fixture.env Fixture.config
                  Fixture.model eq_refl)).
Defined.

(** ** Running the three graphs *)

Section Running.

Variable self : OnlineLstmTransducerModel.

Lemma RunEncoder_eq features h c rest n0 n1 n2 names :
  encoder_input_names_ (encoder_ self) = n0 :: n1 :: n2 :: names ->
  RunEncoder self features (h :: c :: rest)
  = ([EvRun (session_path (encoder_sess_ (encoder_ self)))
            [(n0, features); (n1, h); (n2, c)]
            (encoder_output_names_ (encoder_ self))],
     match graph_run (session_model (encoder_sess_ (encoder_ self)))
             [(n0, features); (n1, h); (n2, c)]
             (encoder_output_names_ (encoder_ self)) with
     | Some (o0 :: o1 :: o2 :: _) =>
         Ret (o0, [o1; o2], NullValue :: NullValue :: rest)
     | Some _ => Undefined
     | None => Throw "Run failed"
     end).
Proof.
  intros Hn. unfold RunEncoder, vector_at, Session_Run.
  cbn [lookup list_lookup]. proc_step. rewrite Hn.
  change (zip (take (length [features; h; c]) (n0 :: n1 :: n2 :: names))
              [features; h; c])
    with [(n0, features); (n1, h); (n2, c)].
  cbn [length Nat.ltb Nat.leb]. proc_step.
  destruct (graph_run _ _ _) as [[|o0 [|o1 [|o2 more]]]|]; reflexivity.
Qed.

Lemma RunDecoder_eq decoder_input n0 names :
  decoder_input_names_ (decoder_ self) = n0 :: names ->
  RunDecoder self decoder_input
  = ([EvRun (session_path (decoder_sess_ (decoder_ self)))
            [(n0, decoder_input)] (decoder_output_names_ (decoder_ self))],
     match graph_run (session_model (decoder_sess_ (decoder_ self)))
             [(n0, decoder_input)]
             (decoder_output_names_ (decoder_ self)) with
     | Some (o0 :: _) => Ret o0
     | Some [] => Undefined
     | None => Throw "Run failed"
     end).
Proof.
  intros Hn. unfold RunDecoder, vector_at, Session_Run. rewrite Hn.
  change (zip (take (length [decoder_input]) (n0 :: names)) [decoder_input])
    with [(n0, decoder_input)].
  cbn [length Nat.ltb Nat.leb]. proc_step.
  destruct (graph_run _ _ _) as [[|o0 more]|]; reflexivity.
Qed.

Lemma RunJoiner_eq encoder_out decoder_out n0 n1 names :
  joiner_input_names_ (joiner_ self) = n0 :: n1 :: names ->
  RunJoiner self encoder_out decoder_out
  = ([EvRun (session_path (joiner_sess_ (joiner_ self)))
            [(n0, encoder_out); (n1, decoder_out)]
            (joiner_output_names_ (joiner_ self))],
     match graph_run (session_model (joiner_sess_ (joiner_ self)))
             [(n0, encoder_out); (n1, decoder_out)]
             (joiner_output_names_ (joiner_ self)) with
     | Some (o0 :: _) => Ret o0
     | Some [] => Undefined
     | None => Throw "Run failed"
     end).
Proof.
  intros Hn. unfold RunJoiner, vector_at, Session_Run. cbv zeta. rewrite Hn.
  change (zip (take (length [encoder_out; decoder_out]) (n0 :: n1 :: names))
              [encoder_out; decoder_out])
    with [(n0, encoder_out); (n1, decoder_out)].
  cbn [length Nat.ltb Nat.leb]. proc_step.
  destruct (graph_run _ _ _) as [[|o0 more]|]; reflexivity.
Qed.

End Running.

(** Given two states and three input names, [RunEncoder] executes the
    encoder graph exactly once whatever the graph answers, and does
    nothing else that can be observed. A failed execution leaves
    [RunEncoder] as an exception; an answer of fewer than three outputs
    has no defined result; the process is never ended from here. *)
Theorem run_encoder_failures (self : OnlineLstmTransducerModel)
    (features h c : Value) (rest : list Value)
    (n0 n1 n2 : string) (names : list string) :
  let sess := encoder_sess_ (encoder_ self) in
  let out_names := encoder_output_names_ (encoder_ self) in
  let inputs := [(n0, features); (n1, h); (n2, c)] in
  let r := RunEncoder self features (h :: c :: rest) in
  encoder_input_names_ (encoder_ self) = n0 :: n1 :: n2 :: names ->
  trace r = [EvRun (session_path sess) inputs out_names]
  /\ (graph_run (session_model sess) inputs out_names = None
      <-> exists what, result r = Throw what)
  /\ ((exists outs, graph_run (session_model sess) inputs out_names = Some outs
                    /\ (length outs < 3)%nat)
      <-> result r = Undefined)
  /\ (forall status, result r <> Exit status).
Proof.
  cbv zeta. intros Hn. rewrite (RunEncoder_eq self _ _ _ _ _ _ _ _ Hn).
  cbn [trace result fst snd]. split; [reflexivity|].
  destruct (graph_run _ _ _) as [[|o0 [|o1 [|o2 more]]]|];
    (split; [split; [intros E | intros (w & E)];
             first [discriminate E | reflexivity | now eexists]|]);
    (split; [|discriminate]);
    (split; [intros (outs & E & Hl) | intros E]);
    first [ discriminate E
          | reflexivity
          | injection E as <-; cbn in Hl; lia
          | eexists; split; [reflexivity | cbn; lia] ].
Qed.

Lemma run_encoder_failures_witness :
  trace (RunEncoder Fixture.model NullValue [NullValue; NullValue])
  = [EvRun "encoder.onnx"
       [("x", NullValue); ("h0", NullValue); ("c0", NullValue)]
       ["encoder_out"; "next_h0"; "next_c0"]].
Proof.
  exact (proj1 (run_encoder_failures Fixture.model NullValue NullValue
                  NullValue [] "x" "h0" "c0" [] eq_refl)).
Defined.



(** [RunDecoder] executes the decoder graph once, on its one argument
    under the first input name of the session, and returns the first
    output, whatever else the graph puts out. A failed execution is an
    exception, an empty answer has no defined result, and with no input
    name declared the graph is not executed. *)
Theorem run_decoder_outcome (self : OnlineLstmTransducerModel)
    (decoder_input : Value) :
  let sess := decoder_sess_ (decoder_ self) in
  let out_names := decoder_output_names_ (decoder_ self) in
  let r := RunDecoder self decoder_input in
  (forall n0 names,
     decoder_input_names_ (decoder_ self) = n0 :: names ->
     let answer :=
       graph_run (session_model sess) [(n0, decoder_input)] out_names in
     trace r = [EvRun (session_path sess) [(n0, decoder_input)] out_names]
     /\ (forall o0 more, answer = Some (o0 :: more) -> result r = Ret o0)
     /\ (answer = Some [] -> result r = Undefined)
     /\ (answer = None -> exists what, result r = Throw what))
  /\ (decoder_input_names_ (decoder_ self) = [] -> r = ([], Undefined))
  /\ (forall status, result r <> Exit status).
Proof.
  cbv zeta. split; [|split].
  - intros n0 names Hn. rewrite (RunDecoder_eq self _ _ _ Hn).
    cbn [trace result fst snd]. split; [reflexivity|].
    split; [now intros o0 more ->|].
    split; [now intros ->|]. intros ->. now eexists.
  - intros Hn. unfold RunDecoder, Session_Run. now rewrite Hn.
  - intros status.
    destruct (decoder_input_names_ (decoder_ self)) as [|n0 names] eqn:Hn.
    + unfold RunDecoder, Session_Run. now rewrite Hn.
    + rewrite (RunDecoder_eq self _ _ _ Hn). cbn [result snd].
      now destruct (graph_run _ _ _) as [[|o0 more]|].
Qed.

Lemma run_decoder_outcome_witness :
  let input := BuildDecoderInput Fixture.model Fixture.hyp1 in
  RunDecoder Fixture.model input
  = ([EvRun "decoder.onnx" [("y", input)] ["decoder_out"]], Ret input).
Proof.
  cbv zeta.
  destruct (proj1 (run_decoder_outcome Fixture.model
                     (BuildDecoderInput Fixture.model Fixture.hyp1))
              "y" [] eq_refl) as (Ht & Hr & _).
  specialize (Hr _ [] eq_refl).
  destruct (RunDecoder Fixture.model _) as [t o].
  cbn [trace result fst snd] in Ht, Hr. now rewrite Ht, Hr.
Defined.

(** [RunJoiner] executes the joiner graph once, on the encoder output
    under the first input name and the decoder output under the second,
    and returns the first output. A failed execution is an exception, an
    empty answer has no defined result, and with fewer than two input
    names declared the graph is not executed. *)
Theorem run_joiner_outcome (self : OnlineLstmTransducerModel)
    (encoder_out decoder_out : Value) :
  let sess := joiner_sess_ (joiner_ self) in
  let out_names := joiner_output_names_ (joiner_ self) in
  let r := RunJoiner self encoder_out decoder_out in
  (forall n0 n1 names,
     joiner_input_names_ (joiner_ self) = n0 :: n1 :: names ->
     let inputs := [(n0, encoder_out); (n1, decoder_out)] in
     let answer := graph_run (session_model sess) inputs out_names in
     trace r = [EvRun (session_path sess) inputs out_names]
     /\ (forall o0 more, answer = Some (o0 :: more) -> result r = Ret o0)
     /\ (answer = Some [] -> result r = Undefined)
     /\ (answer = None -> exists what, result r = Throw what))
  /\ ((length (joiner_input_names_ (joiner_ self)) < 2)%nat ->
        r = ([], Undefined)).
Proof.
  cbv zeta. split.
  - intros n0 n1 names Hn. rewrite (RunJoiner_eq self _ _ _ _ _ Hn).
    cbn [trace result fst snd]. split; [reflexivity|].
    split; [now intros o0 more ->|].
    split; [now intros ->|]. intros ->. now eexists.
  - intros Hn. unfold RunJoiner, Session_Run.
    destruct (joiner_input_names_ (joiner_ self)) as [|n0 [|n1 names]];
      try reflexivity.
    cbn in Hn. lia.
Qed.

Lemma run_joiner_outcome_witness :
  let e := Fixture.constant [1; 2; 512] float_one in
  let d := Fixture.constant [1; 512] float_zero in
  RunJoiner Fixture.model e d
  = ([EvRun "joiner.onnx" [("encoder_out", e); ("decoder_out", d)] ["logit"]],
     Ret e).
Proof.
  cbv zeta.
  destruct (proj1 (run_joiner_outcome Fixture.model
                     (Fixture.constant [1; 2; 512] float_one)
                     (Fixture.constant [1; 512] float_zero))
              "encoder_out" "decoder_out" [] eq_refl) as (Ht & Hr & _).
  specialize (Hr _ _ eq_refl).
  destruct (RunJoiner Fixture.model _ _) as [t o].
  cbn [trace result fst snd] in Ht, Hr. now rewrite Ht, Hr.
Defined.

(** ** Calls in sequence *)

(** Two chunks: the next state that [RunEncoder] returns for the first
    chunk can be handed to the call for the second as it is. The graph is
    then executed twice, the second time on the hidden and cell outputs of
    the first, and the caller's vector of the first call is left with two
    moved-from values. *)
Theorem run_encoder_twice (self : OnlineLstmTransducerModel)
    (x1 x2 h c : Value) (n0 n1 n2 : string) (names : list string)
    (e1 h1 c1 e2 h2 c2 : Value) (more1 more2 : list Value) :
  let sess := encoder_sess_ (encoder_ self) in
  let out_names := encoder_output_names_ (encoder_ self) in
  encoder_input_names_ (encoder_ self) = n0 :: n1 :: n2 :: names ->
  graph_run (session_model sess) [(n0, x1); (n1, h); (n2, c)] out_names
  = Some (e1 :: h1 :: c1 :: more1) ->
  graph_run (session_model sess) [(n0, x2); (n1, h1); (n2, c1)] out_names
  = Some (e2 :: h2 :: c2 :: more2) ->
  ('(out1, next1, spent1) ← RunEncoder self x1 [h; c];
   '(out2, next2, spent2) ← RunEncoder self x2 next1;
   mret (out1, spent1, out2, next2, spent2))
  = ([EvRun (session_path sess) [(n0, x1); (n1, h); (n2, c)] out_names;
      EvRun (session_path sess) [(n0, x2); (n1, h1); (n2, c1)] out_names],
     Ret (e1, [NullValue; NullValue], e2, [h2; c2], [NullValue; NullValue])).
Proof.
  cbv zeta. intros Hn H1 H2.
  rewrite (RunEncoder_eq self _ _ _ _ _ _ _ _ Hn), H1. proc_step.
  rewrite (RunEncoder_eq self _ _ _ _ _ _ _ _ Hn), H2. reflexivity.
Qed.

Lemma run_encoder_twice_witness :
  let x1 := Fixture.constant [1; 9; 80] float_one in
  let x2 := Fixture.constant [1; 9; 80] float_zero in
  let h := Fixture.constant [3; 1; 4] float_zero in
  let c := Fixture.constant [3; 1; 8] float_zero in
  result ('(out1, next1, spent1) ← RunEncoder Fixture.model x1 [h; c];
          '(out2, next2, spent2) ← RunEncoder Fixture.model x2 next1;
          mret (out1, spent1, out2, next2, spent2))
  = Ret (x1, [NullValue; NullValue], x2, [h; c], [NullValue; NullValue]).
Proof.
  cbv zeta.
  rewrite (run_encoder_twice Fixture.model _ _ _ _ "x" "h0" "c0" []
             _ _ _ _ _ _ [] [] eq_refl eq_refl eq_refl).
  reflexivity.
Defined.

(** The first chunk of a stream: when the element counts fit an [int],
    the states that [GetEncoderInitStates] returns are accepted by
    [RunEncoder], and the encoder graph is executed on the features
    followed by a hidden tensor [layers, 1, d_model] and a cell tensor
    [layers, 1, rnn_hidden_size] that are zero throughout. *)
Theorem first_chunk_runs_on_zero_state (self : OnlineLstmTransducerModel)
    (features : Value) (n0 n1 n2 : string) (names : list string) :
  let L := num_encoder_layers_ (encoder_ self) in
  let D := d_model_ (encoder_ self) in
  let R := rnn_hidden_size_ (encoder_ self) in
  0 < L -> 0 < D -> 0 < R ->
  L * D <= Int.INT_MAX -> L * R <= Int.INT_MAX ->
  encoder_input_names_ (encoder_ self) = n0 :: n1 :: n2 :: names ->
  exists h c alloc,
    GetEncoderInitStates self = Some ([h; c], alloc)
    /\ trace (RunEncoder self features [h; c])
       = [EvRun (session_path (encoder_sess_ (encoder_ self)))
            [(n0, features); (n1, h); (n2, c)]
            (encoder_output_names_ (encoder_ self))]
    /\ value_shape h = Some [L; 1; D]
    /\ value_shape c = Some [L; 1; R]
    /\ (forall i, 0 <= i < L * 1 * D -> float_at h i = Some float_zero)
    /\ (forall i, 0 <= i < L * 1 * R -> float_at c i = Some float_zero).
Proof.
  cbv zeta. intros HL HD HR HLD HLR Hn.
  destruct (GetEncoderInitStates_zero_in_range self HL HD HR HLD HLR)
    as (h & c & alloc & Hs & Hrest).
  exists h, c, alloc. split; [exact Hs|]. split; [|exact Hrest].
  now rewrite (RunEncoder_eq self _ _ _ _ _ _ _ _ Hn).
Qed.

Lemma first_chunk_runs_on_zero_state_witness :
  exists h c alloc,
    GetEncoderInitStates Fixture.model = Some ([h; c], alloc)
    /\ value_shape h = Some [3; 1; 4]
    /\ value_shape c = Some [3; 1; 8]
    /\ float_at h 0 = Some float_zero
    /\ float_at c 23 = Some float_zero.
Proof.
  destruct (first_chunk_runs_on_zero_state Fixture.model NullValue
              "x" "h0" "c0" []
              ltac:(reflexivity) ltac:(reflexivity) ltac:(reflexivity)
              ltac:(discriminate) ltac:(discriminate) eq_refl)
    as (h & c & alloc & Hs & _ & Hsh & Hsc & Hh & Hc).
  exists h, c, alloc. split; [exact Hs|]. split; [exact Hsh|].
  split; [exact Hsc|]. split; [apply Hh | apply Hc]; cbn; lia.
Defined.

(** For a model whose dimensions are positive and whose two element
    counts, layers times width, fit an [int], [GetEncoderInitStates]
    returns two tensors, hidden then cell, of shapes [layers, 1, d_model]
    and [layers, 1, rnn_hidden_size], with every element zero whatever the
    allocator left in the buffers. *)
Theorem initial_state_zero_when_counts_fit (self : OnlineLstmTransducerModel) :
  let L := num_encoder_layers_ (encoder_ self) in
  let D := d_model_ (encoder_ self) in
  let R := rnn_hidden_size_ (encoder_ self) in
  0 < L -> 0 < D -> 0 < R ->
  L * D <= Int.INT_MAX -> L * R <= Int.INT_MAX ->
  exists h c alloc,
    GetEncoderInitStates self = Some ([h; c], alloc)
    /\ value_shape h = Some [L; 1; D]
    /\ value_shape c = Some [L; 1; R]
    /\ (forall i, 0 <= i < L * 1 * D -> float_at h i = Some float_zero)
    /\ (forall i, 0 <= i < L * 1 * R -> float_at c i = Some float_zero).
Proof. exact (GetEncoderInitStates_zero_in_range self). Qed.

Lemma initial_state_zero_when_counts_fit_witness :
  exists h c alloc,
    GetEncoderInitStates Fixture.model = Some ([h; c], alloc)
    /\ value_shape h = Some [3; 1; 4]
    /\ value_shape c = Some [3; 1; 8]
    /\ float_at h 11 = Some float_zero
    /\ float_at c 0 = Some float_zero.
Proof.
  destruct (initial_state_zero_when_counts_fit Fixture.model
              ltac:(reflexivity) ltac:(reflexivity) ltac:(reflexivity)
              ltac:(discriminate) ltac:(discriminate))
    as (h & c & alloc & Hs & Hsh & Hsc & Hh & Hc).
  exists h, c, alloc. split; [exact Hs|]. split; [exact Hsh|].
  split; [exact Hsc|]. split; [apply Hh | apply Hc]; cbn; lia.
Defined.

(** One decoding step: the decoder runs on the tensor built from the
    hypothesis and the joiner on the encoder output followed by what the
    decoder returned; the two graphs are executed in this order and the
    first output of the joiner is the result. *)
Theorem decoder_then_joiner (self : OnlineLstmTransducerModel)
    (hyp : vector_int64) (encoder_out d0 l0 : Value)
    (nd ne nj : string) (dnames jnames : list string)
    (dmore lmore : list Value) :
  let input := BuildDecoderInput self hyp in
  let dsess := decoder_sess_ (decoder_ self) in
  let jsess := joiner_sess_ (joiner_ self) in
  decoder_input_names_ (decoder_ self) = nd :: dnames ->
  joiner_input_names_ (joiner_ self) = ne :: nj :: jnames ->
  graph_run (session_model dsess) [(nd, input)]
    (decoder_output_names_ (decoder_ self)) = Some (d0 :: dmore) ->
  graph_run (session_model jsess) [(ne, encoder_out); (nj, d0)]
    (joiner_output_names_ (joiner_ self)) = Some (l0 :: lmore) ->
  RunDecoder self input ≫= RunJoiner self encoder_out
  = ([EvRun (session_path dsess) [(nd, input)]
            (decoder_output_names_ (decoder_ self));
      EvRun (session_path jsess) [(ne, encoder_out); (nj, d0)]
            (joiner_output_names_ (joiner_ self))],
     Ret l0).
Proof.
  cbv zeta. intros Hd Hj Hrd Hrj.
  rewrite (RunDecoder_eq self _ _ _ Hd), Hrd. proc_step.
  rewrite (RunJoiner_eq self _ _ _ _ _ Hj), Hrj. reflexivity.
Qed.

Lemma decoder_then_joiner_witness :
  let e := Fixture.constant [1; 2; 512] float_one in
  result (RunDecoder Fixture.model
            (BuildDecoderInput Fixture.model Fixture.hyp1)
          ≫= RunJoiner Fixture.model e)
  = Ret e.
Proof.
  cbv zeta.
  rewrite (decoder_then_joiner Fixture.model Fixture.hyp1 _ _ _
             "y" "encoder_out" "decoder_out" [] [] [] _
             eq_refl eq_refl eq_refl eq_refl).
  reflexivity.
Defined.

(** ** The decoder input as the hypothesis grows *)

(** One more token moves the window by one place: when the hypothesis
    [toks] becomes [toks ++ [t]] (wherever the vector then keeps its
    elements), the new decoder input is the old one without its first
    token, followed by [t]. *)
Theorem decoder_input_slides (self : OnlineLstmTransducerModel)
    (mem mem' : gmap N (list Z)) (hyp hyp' : vector_int64)
    (toks : list Z) (t : Z) :
  let cs := context_size_ (decoder_ self) in
  0 < cs -> holds mem hyp toks -> holds mem' hyp' (toks ++ [t]) ->
  cs <= Z.of_nat (length toks) ->
  exists window,
    int64_elements mem (BuildDecoderInput self hyp) = Some window
    /\ Z.of_nat (length window) = cs
    /\ int64_elements mem' (BuildDecoderInput self hyp')
       = Some (drop 1 window ++ [t]).
Proof.
  cbv zeta. intros Hcs Hh Hh' Hlen.
  exists (drop (length toks - Z.to_nat (context_size_ (decoder_ self))) toks).
  split; [now apply BuildDecoderInput_reads_suffix|].
  split; [rewrite length_drop; lia|].
  rewrite (BuildDecoderInput_reads_suffix self mem' Hcs hyp' (toks ++ [t]) Hh')
    by (rewrite length_app; cbn [length]; lia).
  f_equal. rewrite length_app. cbn [length].
  rewrite drop_app_le by lia. rewrite drop_drop. do 2 f_equal. lia.
Qed.

Lemma decoder_input_slides_witness :
  int64_elements Fixture.mem_grown
    (BuildDecoderInput Fixture.model Fixture.hyp1) = Some [5; 9]
  /\ int64_elements Fixture.mem_grown
       (BuildDecoderInput Fixture.model Fixture.hyp_grown) = Some [9; 4].
Proof.
  destruct (decoder_input_slides Fixture.model Fixture.mem_grown
              Fixture.mem_grown Fixture.hyp1 Fixture.hyp_grown
              [0; 0; 17; 5; 9] 4 ltac:(reflexivity)
              (ex_intro _ 1%N (conj eq_refl (conj eq_refl eq_refl)))
              (ex_intro _ 3%N (conj eq_refl (conj eq_refl eq_refl)))
              ltac:(discriminate))
    as (window & Hw & _ & Hg).
  assert (E : window = [5; 9]).
  { change (int64_elements Fixture.mem_grown
              (BuildDecoderInput Fixture.model Fixture.hyp1))
      with (Some [5; 9]) in Hw. now injection Hw. }
  subst window. split; [exact Hw | exact Hg].
Defined.

(** ** The Zipformer example, on every path *)

Ltac main_step :=
  cbn [mbind mret Zipformer.Prog_bind Zipformer.Prog_ret fst snd app].

Lemma main_without_wave api :
  Zipformer.SherpaOnnxReadWave api Zipformer.wav_filename = None ->
  Zipformer.main api
  = ([Zipformer.ReadWave Zipformer.wav_filename;
      Zipformer.Fprintf ("Failed to read " +:+ Zipformer.wav_filename
                         +:+ CString.nl)],
     -1).
Proof.
  intros Hw. unfold Zipformer.main, Zipformer.does. main_step. now rewrite Hw.
Qed.

Lemma main_without_recognizer api wave :
  Zipformer.SherpaOnnxReadWave api Zipformer.wav_filename = Some wave ->
  Zipformer.SherpaOnnxCreateOfflineRecognizer api Zipformer.recognizer_config
  = None ->
  Zipformer.main api
  = ([Zipformer.ReadWave Zipformer.wav_filename;
      Zipformer.CreateOfflineRecognizer Zipformer.recognizer_config;
      Zipformer.Fprintf ("Please check your config!" +:+ CString.nl);
      Zipformer.FreeWave wave],
     -1).
Proof.
  intros Hw Hr. unfold Zipformer.main, Zipformer.does. main_step.
  rewrite Hw. main_step. now rewrite Hr.
Qed.

Lemma main_with_both api wave recognizer :
  Zipformer.SherpaOnnxReadWave api Zipformer.wav_filename = Some wave ->
  Zipformer.SherpaOnnxCreateOfflineRecognizer api Zipformer.recognizer_config
  = Some recognizer ->
  Zipformer.main api
  = (let stream := Zipformer.SherpaOnnxCreateOfflineStream api recognizer in
     let result := Zipformer.SherpaOnnxGetOfflineStreamResult api stream in
     [Zipformer.ReadWave Zipformer.wav_filename;
      Zipformer.CreateOfflineRecognizer Zipformer.recognizer_config;
      Zipformer.CreateOfflineStream recognizer;
      Zipformer.AcceptWaveformOffline stream (Zipformer.sample_rate wave)
        (Zipformer.samples wave) (Zipformer.num_samples wave);
      Zipformer.DecodeOfflineStream recognizer stream;
      Zipformer.GetOfflineStreamResult stream;
      Zipformer.Fprintf ("Decoded text: " +:+ Zipformer.text result
                         +:+ CString.nl);
      Zipformer.DestroyOfflineRecognizerResult result;
      Zipformer.DestroyOfflineStream stream;
      Zipformer.DestroyOfflineRecognizer recognizer;
      Zipformer.FreeWave wave],
     0).
Proof.
  intros Hw Hr. cbv zeta. unfold Zipformer.main, Zipformer.does. main_step.
  rewrite Hw. main_step. now rewrite Hr.
Qed.

(** With a wave and a recognizer, [main] creates one stream from the
    recognizer, feeds it the sample rate, the samples and the number of
    samples of the wave, decodes, prints the text of the result, destroys
    the result, the stream and the recognizer, frees the wave, and returns
    0. *)
Theorem main_decodes_and_releases (api : Zipformer.CApi)
    (wave : Zipformer.SherpaOnnxWave) (recognizer : Zipformer.Recognizer) :
  Zipformer.SherpaOnnxReadWave api Zipformer.wav_filename = Some wave ->
  Zipformer.SherpaOnnxCreateOfflineRecognizer api Zipformer.recognizer_config
  = Some recognizer ->
  let stream := Zipformer.SherpaOnnxCreateOfflineStream api recognizer in
  let result := Zipformer.SherpaOnnxGetOfflineStreamResult api stream in
  Zipformer.main api
  = ([Zipformer.ReadWave Zipformer.wav_filename;
      Zipformer.CreateOfflineRecognizer Zipformer.recognizer_config;
      Zipformer.CreateOfflineStream recognizer;
      Zipformer.AcceptWaveformOffline stream (Zipformer.sample_rate wave)
        (Zipformer.samples wave) (Zipformer.num_samples wave);
      Zipformer.DecodeOfflineStream recognizer stream;
      Zipformer.GetOfflineStreamResult stream;
      Zipformer.Fprintf ("Decoded text: " +:+ Zipformer.text result
                         +:+ CString.nl);
      Zipformer.DestroyOfflineRecognizerResult result;
      Zipformer.DestroyOfflineStream stream;
      Zipformer.DestroyOfflineRecognizer recognizer;
      Zipformer.FreeWave wave],
     0).
Proof. intros Hw Hr. exact (main_with_both api wave recognizer Hw Hr). Qed.

Lemma main_decodes_and_releases_witness :
  snd (Zipformer.main Fixture.api_ok) = 0
  /\ length (fst (Zipformer.main Fixture.api_ok)) = 11%nat.
Proof.
  rewrite (main_decodes_and_releases Fixture.api_ok Fixture.wave 1%N
             eq_refl eq_refl).
  split; reflexivity.
Defined.

(** [main] returns 0 exactly when the wave was read and the recognizer
    was created, and -1 otherwise. *)
Theorem main_return_value (api : Zipformer.CApi) :
  (snd (Zipformer.main api) = 0
   <-> is_Some (Zipformer.SherpaOnnxReadWave api Zipformer.wav_filename)
       /\ is_Some (Zipformer.SherpaOnnxCreateOfflineRecognizer api
                     Zipformer.recognizer_config))
  /\ (snd (Zipformer.main api) = 0 \/ snd (Zipformer.main api) = -1).
Proof.
  destruct (Zipformer.SherpaOnnxReadWave api Zipformer.wav_filename)
    as [wave|] eqn:Hw.
  - destruct (Zipformer.SherpaOnnxCreateOfflineRecognizer api
                Zipformer.recognizer_config) as [recognizer|] eqn:Hr.
    + rewrite (main_with_both api wave recognizer Hw Hr).
      cbn [snd]. split; [|now left].
      split; [intros _; split; now eexists | reflexivity].
    + rewrite (main_without_recognizer api wave Hw Hr). cbn [snd].
      split; [|now right].
      split; [discriminate | intros [_ [? [=]]]].
  - rewrite (main_without_wave api Hw). cbn [snd]. split; [|now right].
    split; [discriminate | intros [[? [=]] _]].
Qed.

Lemma main_return_value_witness :
  snd (Zipformer.main Fixture.api_ok) = 0.
Proof.
  apply (proj1 (main_return_value Fixture.api_ok)).
  split; now eexists.
Defined.


(** The check is not vacuous: a wave that is read and not freed, and a
    wave that is freed without having been read, are both refused. *)
Example unreleased_wave_is_refused :
  ~ Resources.clean Fixture.api_ok [Zipformer.ReadWave Zipformer.wav_filename].
Proof. unfold Resources.clean. cbn. discriminate. Qed.

Example release_without_hold_is_refused :
  ~ Resources.clean Fixture.api_ok [Zipformer.FreeWave Fixture.wave].
Proof. unfold Resources.clean. cbn. discriminate. Qed.

Example stream_without_recognizer_is_refused :
  ~ Resources.clean Fixture.api_no_recognizer
      [Zipformer.ReadWave Zipformer.wav_filename;
       Zipformer.CreateOfflineRecognizer Zipformer.recognizer_config;
       Zipformer.CreateOfflineStream 1%N].
Proof. unfold Resources.clean. cbn. discriminate. Qed.
